(** * Page tiling and layout of pathfinder.mapmaker

    A shallow embedding of [split_image] and [make_pdf] from
    [src/python/pathfinder/mapmaker/__init__.py], and the properties of the
    layout planner, of the tile crops and of the registration marks.

    Numbers.  Python's [float] quantities (millimetres, pixels per millimetre,
    crop coordinates) are read as exact rationals [Q]; [int] quantities that
    the code computes with [math.ceil] or iterates over with [range] are [Z].
    [a / b] raises [ZeroDivisionError] when [b] is zero, which the embedding
    keeps as an explicit error. *)

From Stdlib Require Import ZArith QArith Qround Qminmax Lia Lqa List Bool String Ascii.
From Stdlib Require Import DecimalString DecimalZ DecimalPos.
Import ListNotations.

Local Open Scope Q_scope.

(** ** Exceptions and the error monad *)

Inductive exn : Set :=
| ZeroDivisionError
| AttributeError.

Inductive result (A : Type) : Type :=
| Ok (a : A)
| Raise (e : exn).

Arguments Ok {A} a.
Arguments Raise {A} e.

Definition bind {A B : Type} (m : result A) (k : A -> result B) : result B :=
  match m with
  | Ok a => k a
  | Raise e => Raise e
  end.

Notation "x <- m ;; k" := (bind m (fun x => k))
  (at level 61, m at next level, right associativity).

(** Python's true division [a / b]. *)
Definition truediv (a b : Q) : result Q :=
  if Qeq_bool b 0 then Raise ZeroDivisionError else Ok (a / b).

(** ** Paper sizes *)

Record PaperSize : Set := mkPaperSize
  { width : Q;
    height : Q;
    name : string }.

Definition A4 : PaperSize := mkPaperSize 210 297 "A4".
Definition A3 : PaperSize := mkPaperSize 297 420 "A3".
Definition A2 : PaperSize := mkPaperSize 420 594 "A2".
Definition A1 : PaperSize := mkPaperSize 594 841 "A1".
Definition A0 : PaperSize := mkPaperSize 841 1189 "A0".

(** [Paper.dimensions]. *)
Definition dimensions (paper : PaperSize) : Q * Q :=
  (width paper, height paper).

(** ** The layout planner: [get_page_size] inside [split_image] *)

Inductive orientation : Set := P | L.

(** The inner helper [pages(size, printable_size, overlap)]. *)
Definition pages (size printable_size overlap : Q) : result Z :=
  q <- truediv size printable_size ;;
  if (Qceiling q =? 1)%Z then Ok 1%Z
  else
    q' <- truediv size (printable_size + overlap) ;;
    Ok (Qceiling q').

(** The inner helper [zero_if_one(test, value)]. *)
Definition zero_if_one (test : Z) (value : Q) : Q :=
  if (test =? 1)%Z then 0 else value.

(** The tuple returned by [get_page_size], with the names it is unpacked
    into. *)
Record PageSize : Set := mkPageSize
  { ps_orientation : orientation;
    ps_pages_horizontal : Z;
    ps_pages_vertical : Z;
    ps_page_width : Q;
    ps_page_height : Q }.

(** The keyword arguments of [split_image] that describe the sheet. *)
Record Sheet : Set := mkSheet
  { border_north : Q;
    border_east : Q;
    border_west : Q;
    border_south : Q;
    overlap_east : Q;
    overlap_south : Q;
    paper : PaperSize }.

(** The defaults of [split_image]: 5 mm borders, 10 mm overlaps, A4. *)
Definition default_sheet : Sheet := mkSheet 5 5 5 5 10 10 A4.

(** [printable_width] and [printable_height], the first two lines of
    [get_page_size]. *)
Definition printable_width (sh : Sheet) : Q :=
  width (paper sh) - (border_east sh + border_west sh).

Definition printable_height (sh : Sheet) : Q :=
  height (paper sh) - (border_north sh + border_south sh).

(** [get_page_size()], a closure over [width_mm], [height_mm] and the sheet
    arguments of [split_image]. *)
Definition get_page_size (width_mm height_mm : Q) (sh : Sheet) : result PageSize :=
  let printable_width := printable_width sh in
  let printable_height := printable_height sh in
  pages_horizontal_p <- pages width_mm printable_width (overlap_east sh) ;;
  pages_vertical_p <- pages height_mm printable_height (overlap_south sh) ;;
  pages_horizontal_l <- pages width_mm printable_height (overlap_south sh) ;;
  pages_vertical_l <- pages height_mm printable_width (overlap_east sh) ;;
  if (pages_horizontal_p * pages_vertical_p >? pages_horizontal_l * pages_vertical_l)%Z
  then
    Ok (mkPageSize L pages_horizontal_l pages_vertical_l
          (printable_height - zero_if_one pages_horizontal_l (overlap_south sh))
          (printable_width - zero_if_one pages_vertical_l (overlap_east sh)))
  else
    Ok (mkPageSize P pages_horizontal_p pages_vertical_p
          (printable_width - zero_if_one pages_horizontal_p (overlap_east sh))
          (printable_height - zero_if_one pages_vertical_p (overlap_south sh))).

(** The printable span and the overlap that an orientation sets against
    the image's horizontal and vertical axis. *)
Definition span_horizontal (o : orientation) (sh : Sheet) : Q :=
  match o with P => printable_width sh | L => printable_height sh end.

Definition span_vertical (o : orientation) (sh : Sheet) : Q :=
  match o with P => printable_height sh | L => printable_width sh end.

Definition overlap_horizontal (o : orientation) (sh : Sheet) : Q :=
  match o with P => overlap_east sh | L => overlap_south sh end.

Definition overlap_vertical (o : orientation) (sh : Sheet) : Q :=
  match o with P => overlap_south sh | L => overlap_east sh end.

(** A sheet the planner can divide by: positive printable area and
    overlaps that are not negative. *)
Definition printable (sh : Sheet) : Prop :=
  0 < printable_width sh /\ 0 < printable_height sh /\
  0 <= overlap_east sh /\ 0 <= overlap_south sh.

(** The page counts of an orientation, when the sheet is printable. *)
Definition count_pages (size printable_size overlap : Q) : Z :=
  if (Qceiling (size / printable_size) =? 1)%Z then 1%Z
  else Qceiling (size / (printable_size + overlap)).

(** ** Pixels per millimetre

    The expression that opens both [process_image_with_border] and
    [split_image]:
    [min(width_pixels / (squares_wide * 25.4), height_pixels / (squares_high * 25.4))]. *)
Definition pixels_per_mm (width_pixels height_pixels : Z)
    (squares_wide squares_high : Q) : result Q :=
  a <- truediv (inject_Z width_pixels) (squares_wide * 25.4) ;;
  b <- truediv (inject_Z height_pixels) (squares_high * 25.4) ;;
  Ok (Qmin a b).

(** The dict returned by [process_image_with_border] (the image itself is
    left out: the enhancement operations keep its size). *)
Record ImageSpec : Set := mkImageSpec
  { image_width : Q;
    image_height : Q;
    margin_left : Q;
    margin_top : Q;
    page_width : Q;
    page_height : Q }.

(** [process_image_with_border], on the size of the image. *)
Definition process_image_with_border (im_size : Z * Z) (squares_wide squares_high : Q)
    (border_north border_east border_west border_south : Q) : result ImageSpec :=
  let '(width_pixels, height_pixels) := im_size in
  pixels_per_mm <- pixels_per_mm width_pixels height_pixels squares_wide squares_high ;;
  image_width_mm <- truediv (inject_Z width_pixels) pixels_per_mm ;;
  image_height_mm <- truediv (inject_Z height_pixels) pixels_per_mm ;;
  Ok (mkImageSpec image_width_mm image_height_mm border_west border_north
        (image_width_mm + border_west + border_east)
        (image_height_mm + border_north + border_south)).

(** ** Tiles: the crops of [split_image] *)

(** The 4-tuple handed to [im.crop]: left, upper, right, lower, in pixels. *)
Record Box : Set := mkBox
  { left : Q;
    upper : Q;
    right : Q;
    lower : Q }.

(** [range(n)] for a Python int. *)
Definition range (n : Z) : list Z :=
  map Z.of_nat (seq 0 (Z.to_nat n)).

(** [str(i)] for a Python int, as ['{}'.format(i)] prints it. *)
Definition str_int (i : Z) : string :=
  NilZero.string_of_int (Z.to_int i).

(** ['{}_{}'.format(x, y)]. *)
Definition format_coords (x y : Z) : string :=
  (str_int x ++ "_" ++ str_int y)%string.

(** A Python dict with string keys, in insertion order: assigning to a key
    that is present replaces its value in place. *)
Fixpoint dict_set {V : Type} (d : list (string * V)) (k : string) (v : V)
    : list (string * V) :=
  match d with
  | [] => [(k, v)]
  | (k', v') :: d' =>
      if String.eqb k' k then (k', v) :: d' else (k', v') :: dict_set d' k v
  end.

(** A dict comprehension: the items are assigned one after the other. *)
Definition dict_of_items {V : Type} (items : list (string * V)) : list (string * V) :=
  fold_left (fun d kv => dict_set d (fst kv) (snd kv)) items [].

(** [crop_for(page_x, page_y)], as the box it crops. *)
Definition crop_for (width_pixels height_pixels : Z)
    (pixel_width_page pixel_height_page overlap_east_pixels overlap_south_pixels : Q)
    (page_x page_y : Z) : Box :=
  mkBox (inject_Z page_x * pixel_width_page)
        (inject_Z page_y * pixel_height_page)
        (Qmin (inject_Z width_pixels)
              ((inject_Z page_x + 1) * pixel_width_page + overlap_east_pixels))
        (Qmin (inject_Z height_pixels)
              ((inject_Z page_y + 1) * pixel_height_page + overlap_south_pixels)).

(** The dict returned by [split_image]; ['images'] maps the tile name to
    the box of its crop. *)
Record Split : Set := mkSplit
  { s_pixels_per_mm : Q;
    s_images : list (string * Box);
    s_orientation : orientation;
    s_border : Q * Q * Q * Q;
    s_pages_horizontal : Z;
    s_pages_vertical : Z;
    s_paper : PaperSize }.

(** [split_image], on the size of the image: [basic_image_ops] changes the
    pixels and not the size, and [im.crop] is Pillow's, so a tile is kept as
    the box that [crop_for] asks for. *)
Definition split_image (im_size : Z * Z) (squares_wide squares_high : Q)
    (sh : Sheet) : result Split :=
  let '(width_pixels, height_pixels) := im_size in
  pixels_per_mm <- pixels_per_mm width_pixels height_pixels squares_wide squares_high ;;
  width_mm <- truediv (inject_Z width_pixels) pixels_per_mm ;;
  height_mm <- truediv (inject_Z height_pixels) pixels_per_mm ;;
  ps <- get_page_size width_mm height_mm sh ;;
  let pixel_width_page := ps_page_width ps * pixels_per_mm in
  let pixel_height_page := ps_page_height ps * pixels_per_mm in
  let '(overlap_east_pixels, overlap_south_pixels, borders) :=
    match ps_orientation ps with
    | P => (pixels_per_mm * overlap_east sh,
            pixels_per_mm * overlap_south sh,
            (border_north sh, border_east sh + overlap_east sh,
             border_south sh + overlap_south sh, border_west sh))
    | L => (pixels_per_mm * overlap_south sh,
            pixels_per_mm * overlap_east sh,
            (border_east sh, border_south sh + overlap_east sh,
             border_west sh + overlap_south sh, border_north sh))
    end in
  let crop_for := crop_for width_pixels height_pixels pixel_width_page
                    pixel_height_page overlap_east_pixels overlap_south_pixels in
  Ok (mkSplit pixels_per_mm
        (dict_of_items
           (flat_map (fun x => map (fun y => (format_coords x y, crop_for x y))
                                (range (ps_pages_vertical ps)))
              (range (ps_pages_horizontal ps))))
        (ps_orientation ps)
        borders
        (ps_pages_horizontal ps)
        (ps_pages_vertical ps)
        (paper sh)).

(** ** Registration marks: [make_pdf] *)

(** What [make_pdf] asks of the [FPDF] object, in call order. *)
Inductive PdfOp : Set :=
| pdf_add_page
| pdf_line (x1 y1 x2 y2 : Q)
| pdf_dashed_line (x1 y1 x2 y2 : Q)
| pdf_image (name : string) (x y w h : Q).

(** The inner helper [tick]; [line] is [pdf.dashed_line] when [dash] is set
    and [pdf.line] otherwise.  Every call in [make_pdf] leaves [size] and
    [gap] at their defaults, 5 and 1. *)
Definition tick (page_width page_height : Q) (x y size gap : Q)
    (n e s w dash : bool) : list PdfOp :=
  let line := if dash then pdf_dashed_line else pdf_line in
  (if w then
     [if Qle_bool x size then line (x - gap) y 0 y
      else line (x - gap) y (x - size) y]
   else []) ++
  (if e then
     [if Qle_bool (page_width - x) size then line (x + gap) y page_width y
      else line (x + gap) y (x + size) y]
   else []) ++
  (if n then
     [if Qle_bool y size then line x (y - gap) x 0
      else line x (y - gap) x (y - size)]
   else []) ++
  (if s then
     [if Qle_bool (page_height - y) size then line x (y + gap) x page_height
      else line x (y + gap) x (y + size)]
   else []).

(** A decimal digit, [0] to [9]. *)
Definition is_digit (c : ascii) : bool :=
  ((48 <=? nat_of_ascii c) && (nat_of_ascii c <=? 57))%nat.

(** The longest prefix of decimal digits of a string, and what follows it:
    what a greedy [\d+] consumes. *)
Fixpoint span_digits (s : string) : string * string :=
  match s with
  | EmptyString => (EmptyString, EmptyString)
  | String c s' =>
      if is_digit c then
        let (ds, rest) := span_digits s' in (String c ds, rest)
      else (EmptyString, s)
  end.

(** [re.match(r'(\d+)_(\d+)', coords)]: the two groups, or [None].  The
    character after a greedy run of digits is not a digit, so giving digits
    back never helps the match. *)
Definition match_coords (coords : string) : option (string * string) :=
  match span_digits coords with
  | (String c1 g1, String "_" rest) =>
      match span_digits rest with
      | (String c2 g2, _) => Some (String c1 g1, String c2 g2)
      | _ => None
      end
  | _ => None
  end.

(** [int(s)] on a string of decimal digits. *)
Definition int_of_digits (s : string) : Z :=
  match NilEmpty.uint_of_string s with
  | Some u => Z.of_uint u
  | None => 0%Z
  end.

Section MakePdf.

(** [image.size] of a tile, the one thing [make_pdf] reads from the image
    of a crop. *)
Variable image_size : Box -> Z * Z.

(** One turn of the loop over [images['images'].items()]. *)
Definition make_pdf_page (images : Split) (coords : string) (image : Box)
    : result (list PdfOp) :=
  let ppm := s_pixels_per_mm images in
  let '(border_north, border_east, border_south, border_west) := s_border images in
  let '(page_width, page_height) :=
    match s_orientation images with
    | P => dimensions (s_paper images)
    | L => let '(page_height, page_width) := dimensions (s_paper images) in
           (page_width, page_height)
    end in
  let tick := fun x y n e s w dash =>
    tick page_width page_height x y 5 1 n e s w dash in
  m <- match match_coords coords with
       | Some g => Ok g
       | None => Raise AttributeError
       end ;;
  let x := int_of_digits (fst m) in
  let y := int_of_digits (snd m) in
  let '(im_width, im_height) := image_size image in
  im_width_mm <- truediv (inject_Z im_width) ppm ;;
  im_height_mm <- truediv (inject_Z im_height) ppm ;;
  let last_vertical := (y =? s_pages_vertical images - 1)%Z in
  let last_horizontal := (x =? s_pages_horizontal images - 1)%Z in
  Ok ([pdf_add_page] ++
      tick border_west border_north true false false true false ++
      tick border_west (border_north + im_height_mm) false false true true false ++
      tick (border_west + im_width_mm) (border_north + im_height_mm)
        false true true false false ++
      tick (border_west + im_width_mm) border_north true true false false false ++
      (if negb last_horizontal then
         tick (page_width - border_east) (im_height_mm + border_north)
           false false true false true ++
         tick (page_width - border_east) border_north true false false false true
       else []) ++
      (if negb last_vertical then
         tick border_west (page_height - border_south) false false false true true ++
         tick (border_west + im_width_mm) (page_height - border_south)
           false true false false true
       else []) ++
      [pdf_image coords border_west border_north im_width_mm im_height_mm]).



End MakePdf.

(** [make_single_page_pdf]: the format that the [FPDF] object is made with,
    and the calls on it; the image is the file [image.png] of the temporary
    directory. *)
Definition make_single_page_pdf (image_spec : ImageSpec) : (Q * Q) * list PdfOp :=
  ((page_width image_spec, page_height image_spec),
   [pdf_add_page;
    pdf_image "image.png" (margin_left image_spec) (margin_top image_spec)
      (image_width image_spec) (image_height image_spec)]).

(** ** The upscaler: [run_waifu2x] *)

(** What [run_waifu2x] does with the image: return it as it is, or write it
    to [source], run [command] in the directory of the file [cwd_of] and
    open [dest]. *)
Inductive Waifu2x : Set :=
| unchanged
| run (command : list string) (cwd_of : string).

Section Waifu2x.

Local Open Scope string_scope.

(** [Path(p).is_file()], and the three settings of the module. *)
Variable is_file : string -> bool.
Variables TORCH_PATH WAIFU2X_LUA_PATH WAIFU2X_MACOS_PATH : option string.

(** [p if p is not None else default]. *)
Definition or_default (p default : option string) : option string :=
  match p with
  | None => default
  | Some _ => p
  end.

(** A path that is set is dropped when no file is there. *)
Definition only_file (p : option string) : option string :=
  match p with
  | Some f => if is_file f then Some f else None
  | None => None
  end.

(** [run_waifu2x]; [dir] is the temporary directory, [scale] and
    [force_cudnn] are booleans and [noise] is [None] or an int. *)
Definition run_waifu2x (dir : string)
    (waifu2x_lua_path torch_path waifu2x_macos_path : option string)
    (scale : bool) (noise : option Z) (force_cudnn : bool) : Waifu2x :=
  let waifu2x_lua_path := or_default waifu2x_lua_path WAIFU2X_LUA_PATH in
  let torch_path := or_default torch_path TORCH_PATH in
  let waifu2x_lua_path := only_file waifu2x_lua_path in
  let torch_path := only_file torch_path in
  let waifu2x_macos_path := or_default waifu2x_macos_path WAIFU2X_MACOS_PATH in
  let source := dir ++ "/source.png" in
  let dest := dir ++ "/dest.png" in
  match waifu2x_macos_path with
  | None =>
      match waifu2x_lua_path, torch_path with
      | Some lua, Some torch =>
          if negb scale && match noise with None => true | Some _ => false end
          then unchanged
          else
            run ([torch; lua; "-m"] ++
                 [if scale
                  then match noise with
                       | None => "scale"
                       | Some _ => "noise_scale"
                       end
                  else "noise"] ++
                 match noise with
                 | Some level => ["-noise_level"; str_int level]
                 | None => []
                 end ++
                 (if force_cudnn then ["-force_cudnn"; "1"] else []) ++
                 ["-i"; source; "-o"; dest])%list
              lua
      | _, _ => unchanged
      end
  | Some macos =>
      if negb (is_file macos) then unchanged
      else
        run ([macos] ++
             (if scale then ["-s"; "2"] else ["-s"; "1"]) ++
             ["-n"; str_int match noise with None => 0%Z | Some level => level end] ++
             ["-i"; source; "-o"; dest])%list
          match waifu2x_lua_path with
          | Some lua => lua
          | None => macos
          end
  end.

End Waifu2x.

(** ** The name of a mask: [extract_images_from_pdf] *)

(** [s.find(c)] for one character: the index of its first occurrence, or -1. *)
Fixpoint find (c : ascii) (s : string) : Z :=
  match s with
  | EmptyString => -1
  | String ch s' =>
      if Ascii.eqb ch c then 0
      else let i := find c s' in if (i <? 0)%Z then -1 else (i + 1)%Z
  end.

(** An index of a slice, brought into [0 .. len] as Python does: a negative
    index counts from the end. *)
Definition clamp_index (len i : Z) : Z :=
  if (i <? 0)%Z then Z.max (i + len) 0 else Z.min i len.

(** The slice [s[a:b]]. *)
Definition slice (s : string) (a b : Z) : string :=
  let len := Z.of_nat (String.length s) in
  let start := clamp_index len a in
  let stop := clamp_index len b in
  substring (Z.to_nat start) (Z.to_nat (stop - start)) s.

Fixpoint all_digits (s : string) : bool :=
  match s with
  | EmptyString => true
  | String c s' => is_digit c && all_digits s'
  end.

(** [s.zfill(width)] on a string without a sign. *)
Definition zfill (width : nat) (s : string) : string :=
  Nat.iter (width - String.length s) (String "0") s.

(** [f'{n:03d}']: at least three characters, zeros after the sign. *)
Definition format_03d (n : Z) : string :=
  if (n <? 0)%Z then String "-" (zfill 2 (str_int (- n))) else zfill 3 (str_int n).

Section MaskName.

(** [int(s)] on the strings that are not a run of the digits 0 to 9: an
    error, or the value of one of the other spellings that Python reads. *)
Variable int_other : string -> result Z.

(** [int(s)]. *)
Definition py_int (s : string) : result Z :=
  match s with
  | EmptyString => int_other s
  | String _ _ => if all_digits s then Ok (int_of_digits s) else int_other s
  end.

(** The name under which [extract_images_from_pdf] looks for the mask of
    the image file [entry_name]. *)
Definition mask_name (entry_name : string) : result string :=
  image_number <-
    py_int (slice entry_name (find "-" entry_name + 1) (find "." entry_name)) ;;
  if (image_number <? 99)%Z
  then Ok ("image-" ++ format_03d (image_number + 1) ++ ".png")%string
  else Ok ("image-" ++ str_int (image_number + 1) ++ ".png")%string.

End MaskName.

(** ** Vocabulary of the properties *)

(** The divisions of [pages(size, printable_size, overlap)] that are by
    zero: the first always happens, the second only when the first ceiling
    is not 1. *)
Definition pages_divides_by_zero (size printable_size overlap : Q) : Prop :=
  printable_size == 0 \/
  (Qceiling (size / printable_size) <> 1%Z /\ printable_size + overlap == 0).

(** The sheet on which the planner is run again: the printable page of a
    plan as the paper, no border and no overlap. *)
Definition page_as_sheet (ps : PageSize) : Sheet :=
  mkSheet 0 0 0 0 0 0 (mkPaperSize (ps_page_width ps) (ps_page_height ps) "custom").

(** A pixel position lies in a crop box. *)
Definition in_box (b : Box) (px py : Q) : Prop :=
  left b <= px /\ px < right b /\ upper b <= py /\ py < lower b.

(** [pdf.line] or [pdf.dashed_line], as [tick] picks it. *)
Definition draw (dash : bool) : Q -> Q -> Q -> Q -> PdfOp :=
  if dash then pdf_dashed_line else pdf_line.

(** Both ends of a drawn line are on a sheet of the given size. *)
Definition on_sheet (page_width page_height : Q) (op : PdfOp) : Prop :=
  match op with
  | pdf_line x1 y1 x2 y2 | pdf_dashed_line x1 y1 x2 y2 =>
      (0 <= x1 /\ x1 <= page_width) /\ (0 <= x2 /\ x2 <= page_width) /\
      (0 <= y1 /\ y1 <= page_height) /\ (0 <= y2 /\ y2 <= page_height)
  | _ => True
  end.

(** A line drawn with [pdf.line], and one drawn with [pdf.dashed_line]. *)
Definition is_solid (op : PdfOp) : Prop :=
  match op with pdf_line _ _ _ _ => True | _ => False end.

Definition is_dashed (op : PdfOp) : Prop :=
  match op with pdf_dashed_line _ _ _ _ => True | _ => False end.

(** The sheet as [make_pdf] lays it out: the paper's width and height, taken
    the other way round in landscape. *)
Definition sheet_size (images : Split) : Q * Q :=
  match s_orientation images with
  | P => (width (s_paper images), height (s_paper images))
  | L => (height (s_paper images), width (s_paper images))
  end.

Section Marks.

Variables page_width page_height : Q.
Variables border_north border_east border_south border_west : Q.
Variables im_width_mm im_height_mm : Q.

(** The four marks at the corners of the tile, each with two solid lines:
    top left, bottom left, bottom right, top right. *)
Definition corner_marks : list PdfOp :=
  tick page_width page_height border_west border_north 5 1
    true false false true false ++
  tick page_width page_height border_west (border_north + im_height_mm) 5 1
    false false true true false ++
  tick page_width page_height (border_west + im_width_mm)
    (border_north + im_height_mm) 5 1 false true true false false ++
  tick page_width page_height (border_west + im_width_mm) border_north 5 1
    true true false false false.

(** The pair of dashed marks on the cut line shared with the tile to the
    east. *)
Definition east_edge_marks : list PdfOp :=
  tick page_width page_height (page_width - border_east)
    (im_height_mm + border_north) 5 1 false false true false true ++
  tick page_width page_height (page_width - border_east) border_north 5 1
    true false false false true.

(** The pair of dashed marks on the cut line shared with the tile below. *)
Definition south_edge_marks : list PdfOp :=
  tick page_width page_height border_west (page_height - border_south) 5 1
    false false false true true ++
  tick page_width page_height (border_west + im_width_mm)
    (page_height - border_south) 5 1 false true false false true.

End Marks.

(** A string is empty or starts with a character that is not a digit. *)
Definition starts_nondigit (s : string) : Prop :=
  match s with
  | EmptyString => True
  | String c _ => is_digit c = false
  end.

(** ** Vocabulary of the further properties *)

(** The millimetres that [n] pages reach along an axis: they advance by the
    page size that [get_page_size] returns, and the last one shows the
    overlap in addition. *)
Definition reach (n : Z) (span overlap : Q) : Q :=
  inject_Z n * (span - zero_if_one n overlap) + overlap.

(** The sheet turned by a quarter: the paper's width and height change
    places, the borders move round as [split_image] moves them for
    landscape ([border_east, border_south, border_west, border_north] for
    north, east, south, west), and the two overlaps change places. *)
Definition rotate_sheet (sh : Sheet) : Sheet :=
  mkSheet (border_east sh) (border_south sh) (border_north sh) (border_west sh)
    (overlap_south sh) (overlap_east sh)
    (mkPaperSize (height (paper sh)) (width (paper sh)) (name (paper sh))).



(** A call that draws a line, solid or dashed. *)
Definition is_line (op : PdfOp) : Prop :=
  match op with
  | pdf_line _ _ _ _ | pdf_dashed_line _ _ _ _ => True
  | _ => False
  end.

(** The file name with the number [k] in the pattern of the masks,
    [image-NNN.png]. *)
Definition image_name (k : Z) : string :=
  ("image-" ++ format_03d k ++ ".png")%string.

(** A string is empty or starts with an ASCII character that is not a digit:
    a character that [\d] does not match. *)
Definition starts_plain (s : string) : Prop :=
  match s with
  | EmptyString => True
  | String c _ => is_digit c = false /\ (nat_of_ascii c < 128)%nat
  end.

(** * Properties *)

(** ** Division and ceiling *)

Lemma truediv_ok (a b : Q) : ~ b == 0 -> truediv a b = Ok (a / b).
Proof.
  intros Hb. unfold truediv.
  destruct (Qeq_bool b 0) eqn:E; [|reflexivity].
  apply Qeq_bool_eq in E. contradiction.
Qed.

Lemma truediv_zero (a b : Q) : b == 0 -> truediv a b = Raise ZeroDivisionError.
Proof.
  intros Hb. unfold truediv.
  destruct (Qeq_bool b 0) eqn:E; [reflexivity|].
  apply Qeq_eq_bool in Hb. congruence.
Qed.

Lemma truediv_inv (a b q : Q) : truediv a b = Ok q -> ~ b == 0 /\ q = a / b.
Proof.
  unfold truediv. destruct (Qeq_bool b 0) eqn:E; [discriminate|].
  intros [= <-]. split; [|reflexivity].
  intros Hb. apply Qeq_eq_bool in Hb. congruence.
Qed.

Lemma Qceiling_one_iff (x : Q) : Qceiling x = 1%Z <-> 0 < x /\ x <= 1.
Proof.
  split.
  - intros H. pose proof (Qceiling_lt x) as Hlt. pose proof (Qle_ceiling x) as Hle.
    rewrite H in Hlt, Hle. split; assumption.
  - intros [H0 H1].
    assert (Hup : (Qceiling x <= 1)%Z).
    { change 1%Z with (Qceiling 1). apply Qceiling_resp_le. exact H1. }
    assert (Hlo : (0 < Qceiling x)%Z).
    { rewrite Zlt_Qlt. eapply Qlt_le_trans; [exact H0 | apply Qle_ceiling]. }
    lia.
Qed.

Lemma Qdiv_pos (a b : Q) : 0 < a -> 0 < b -> 0 < a / b.
Proof.
  intros Ha Hb. apply Qlt_shift_div_l; [exact Hb|].
  rewrite Qmult_0_l. exact Ha.
Qed.

Lemma Qdiv_le_1 (a b : Q) : 0 < b -> a <= b -> a / b <= 1.
Proof.
  intros Hb Hab. apply Qle_shift_div_r; [exact Hb|].
  rewrite Qmult_1_l. exact Hab.
Qed.

Lemma Qpos_neq_0 (b : Q) : 0 < b -> ~ b == 0.
Proof. intros Hb E. rewrite E in Hb. exact (Qlt_irrefl 0 Hb). Qed.

Lemma Qpos_plus_nonneg (p o : Q) : 0 < p -> 0 <= o -> 0 < p + o.
Proof.
  intros Hp Ho. apply Qlt_le_trans with (p + 0).
  - rewrite Qplus_0_r. exact Hp.
  - apply Qplus_le_r. exact Ho.
Qed.

(** ** The [pages] helper *)

Lemma pages_unfold (size printable_size overlap : Q) :
  0 < printable_size -> 0 <= overlap ->
  pages size printable_size overlap =
  Ok (if (Qceiling (size / printable_size) =? 1)%Z then 1%Z
      else Qceiling (size / (printable_size + overlap))).
Proof.
  intros Hp Ho. unfold pages.
  rewrite (truediv_ok size printable_size (Qpos_neq_0 _ Hp)). cbn [bind].
  destruct (Qceiling (size / printable_size) =? 1)%Z; [reflexivity|].
  rewrite (truediv_ok _ _ (Qpos_neq_0 _ (Qpos_plus_nonneg _ _ Hp Ho))).
  reflexivity.
Qed.

(** C2. For a positive extent, a positive printable size and a non-negative
    overlap, [pages] returns 1 when [ceil(size / printable_size)] is 1 and
    [ceil(size / (printable_size + overlap))] otherwise; an extent that fits
    in one printable span gets one page whatever the overlap. *)
Theorem pages_count (size printable_size overlap : Q) :
  0 < size -> 0 < printable_size -> 0 <= overlap ->
  (Qceiling (size / printable_size) = 1%Z ->
   pages size printable_size overlap = Ok 1%Z) /\
  (Qceiling (size / printable_size) <> 1%Z ->
   pages size printable_size overlap =
   Ok (Qceiling (size / (printable_size + overlap)))) /\
  (size <= printable_size ->
   forall overlap', 0 <= overlap' -> pages size printable_size overlap' = Ok 1%Z).
Proof.
  intros Hs Hp Ho. split; [|split].
  - intros H. rewrite (pages_unfold _ _ _ Hp Ho).
    apply Z.eqb_eq in H. rewrite H. reflexivity.
  - intros H. rewrite (pages_unfold _ _ _ Hp Ho).
    apply Z.eqb_neq in H. rewrite H. reflexivity.
  - intros Hfit o' Ho'. rewrite (pages_unfold _ _ _ Hp Ho').
    assert (H : Qceiling (size / printable_size) = 1%Z).
    { apply Qceiling_one_iff. split; [apply Qdiv_pos | apply Qdiv_le_1]; assumption. }
    apply Z.eqb_eq in H. rewrite H. reflexivity.
Qed.

(** C2 at 150 mm and 508 mm on a 200 mm span. *)
Lemma pages_count_witness :
  pages 150 200 10 = Ok 1%Z /\ pages 150 200 75 = Ok 1%Z /\
  pages 508 200 10 = Ok (Qceiling (508 / (200 + 10))).
Proof.
  assert (H : 0 < 150 /\ 0 < 508 /\ 0 < 200 /\ 0 <= 10 /\ 150 <= 200 /\ 0 <= 75)
    by (repeat split; discriminate).
  destruct H as (H150 & H508 & H200 & H10 & Hfit & H75).
  destruct (pages_count 150 200 10 H150 H200 H10) as (_ & _ & Hone).
  destruct (pages_count 508 200 10 H508 H200 H10) as (_ & Hmany & _).
  split; [|split].
  - exact (Hone Hfit 10 H10).
  - exact (Hone Hfit 75 H75).
  - apply Hmany. vm_compute. discriminate.
Defined.

(** ** The planner *)

Lemma printable_span (o : orientation) (sh : Sheet) :
  printable sh ->
  0 < span_horizontal o sh /\ 0 < span_vertical o sh /\
  0 <= overlap_horizontal o sh /\ 0 <= overlap_vertical o sh.
Proof. intros (Hw & Hh & He & Hs). destruct o; cbn; auto. Qed.

Lemma pages_candidates (width_mm height_mm : Q) (sh : Sheet) (o : orientation) :
  printable sh ->
  pages width_mm (span_horizontal o sh) (overlap_horizontal o sh) =
    Ok (count_pages width_mm (span_horizontal o sh) (overlap_horizontal o sh)) /\
  pages height_mm (span_vertical o sh) (overlap_vertical o sh) =
    Ok (count_pages height_mm (span_vertical o sh) (overlap_vertical o sh)).
Proof.
  intros Hsh. destruct (printable_span o sh Hsh) as (Hh & Hv & Hoh & Hov).
  split; apply pages_unfold; assumption.
Qed.

(** What [get_page_size] returns once its four [pages] calls are known. *)
Lemma get_page_size_pages (width_mm height_mm : Q) (sh : Sheet)
    (hp vp hl vl : Z) :
  pages width_mm (span_horizontal P sh) (overlap_horizontal P sh) = Ok hp ->
  pages height_mm (span_vertical P sh) (overlap_vertical P sh) = Ok vp ->
  pages width_mm (span_horizontal L sh) (overlap_horizontal L sh) = Ok hl ->
  pages height_mm (span_vertical L sh) (overlap_vertical L sh) = Ok vl ->
  get_page_size width_mm height_mm sh =
  Ok (if (hp * vp >? hl * vl)%Z
      then mkPageSize L hl vl
             (printable_height sh - zero_if_one hl (overlap_south sh))
             (printable_width sh - zero_if_one vl (overlap_east sh))
      else mkPageSize P hp vp
             (printable_width sh - zero_if_one hp (overlap_east sh))
             (printable_height sh - zero_if_one vp (overlap_south sh))).
Proof.
  cbn [span_horizontal span_vertical overlap_horizontal overlap_vertical].
  intros Hhp Hvp Hhl Hvl. unfold get_page_size.
  rewrite Hhp, Hvp, Hhl, Hvl. cbn [bind].
  destruct (hp * vp >? hl * vl)%Z; reflexivity.
Qed.

(** C1. On a printable sheet the planner returns one of the two
    candidates, portrait or landscape, each counted by [pages] with its own
    spans and overlaps; the product of its page counts is the smaller of the
    two products, and it is the portrait candidate whenever the products are
    equal. *)
Theorem get_page_size_minimal (width_mm height_mm : Q) (sh : Sheet) :
  printable sh ->
  exists hp vp hl vl ps,
    pages width_mm (printable_width sh) (overlap_east sh) = Ok hp /\
    pages height_mm (printable_height sh) (overlap_south sh) = Ok vp /\
    pages width_mm (printable_height sh) (overlap_south sh) = Ok hl /\
    pages height_mm (printable_width sh) (overlap_east sh) = Ok vl /\
    get_page_size width_mm height_mm sh = Ok ps /\
    (ps_pages_horizontal ps * ps_pages_vertical ps = Z.min (hp * vp) (hl * vl))%Z /\
    ((hp * vp = hl * vl)%Z -> ps_orientation ps = P) /\
    match ps_orientation ps with
    | P => ps_pages_horizontal ps = hp /\ ps_pages_vertical ps = vp
    | L => ps_pages_horizontal ps = hl /\ ps_pages_vertical ps = vl
    end.
Proof.
  intros Hsh.
  destruct (pages_candidates width_mm height_mm sh P Hsh) as [Hhp Hvp].
  destruct (pages_candidates width_mm height_mm sh L Hsh) as [Hhl Hvl].
  pose proof (get_page_size_pages _ _ _ _ _ _ _ Hhp Hvp Hhl Hvl) as Hg.
  cbn [span_horizontal span_vertical overlap_horizontal overlap_vertical] in *.
  do 4 eexists. eexists.
  split; [exact Hhp|]. split; [exact Hvp|]. split; [exact Hhl|].
  split; [exact Hvl|]. split; [exact Hg|].
  destruct (Z.gtb_spec
    (count_pages width_mm (printable_width sh) (overlap_east sh) *
     count_pages height_mm (printable_height sh) (overlap_south sh))
    (count_pages width_mm (printable_height sh) (overlap_south sh) *
     count_pages height_mm (printable_width sh) (overlap_east sh))) as [Hgt|Hle];
    cbn [ps_pages_horizontal ps_pages_vertical ps_orientation].
  - split; [lia|]. split; [lia|]. split; reflexivity.
  - split; [lia|]. split; [reflexivity|]. split; reflexivity.
Qed.

Lemma default_sheet_printable : printable default_sheet.
Proof. repeat split; discriminate. Qed.

(** C1 for a 508 x 254 mm image on the default sheet. *)
Lemma get_page_size_minimal_witness :
  exists hp vp hl vl ps,
    pages 508 (printable_width default_sheet) (overlap_east default_sheet) = Ok hp /\
    pages 254 (printable_height default_sheet) (overlap_south default_sheet) = Ok vp /\
    pages 508 (printable_height default_sheet) (overlap_south default_sheet) = Ok hl /\
    pages 254 (printable_width default_sheet) (overlap_east default_sheet) = Ok vl /\
    get_page_size 508 254 default_sheet = Ok ps /\
    (ps_pages_horizontal ps * ps_pages_vertical ps = Z.min (hp * vp) (hl * vl))%Z /\
    ((hp * vp = hl * vl)%Z -> ps_orientation ps = P) /\
    match ps_orientation ps with
    | P => ps_pages_horizontal ps = hp /\ ps_pages_vertical ps = vp
    | L => ps_pages_horizontal ps = hl /\ ps_pages_vertical ps = vl
    end.
Proof.
  apply (get_page_size_minimal 508 254 default_sheet).
  unfold printable. vm_compute. repeat split; discriminate.
Defined.

Lemma zero_if_one_one (value : Q) : zero_if_one 1 value = 0.
Proof. reflexivity. Qed.

Lemma zero_if_one_other (test : Z) (value : Q) :
  test <> 1%Z -> zero_if_one test value = value.
Proof. intros H. unfold zero_if_one. apply Z.eqb_neq in H. rewrite H. reflexivity. Qed.

(** ** Failure of the planner *)

Lemma pages_cases (size printable_size overlap : Q) :
  (pages size printable_size overlap = Raise ZeroDivisionError /\
   pages_divides_by_zero size printable_size overlap) \/
  (exists n, pages size printable_size overlap = Ok n /\
             ~ pages_divides_by_zero size printable_size overlap).
Proof.
  unfold pages, pages_divides_by_zero, truediv.
  destruct (Qeq_bool printable_size 0) eqn:E1.
  - left. split; [reflexivity|]. left. apply Qeq_bool_eq. exact E1.
  - assert (H1 : ~ printable_size == 0).
    { intros H. apply Qeq_eq_bool in H. congruence. }
    cbn [bind].
    destruct (Qceiling (size / printable_size) =? 1)%Z eqn:E2.
    + right. exists 1%Z. split; [reflexivity|].
      apply Z.eqb_eq in E2. intros [H|[H _]]; contradiction.
    + apply Z.eqb_neq in E2.
      destruct (Qeq_bool (printable_size + overlap) 0) eqn:E3.
      * left. split; [reflexivity|]. right. split; [exact E2|].
        apply Qeq_bool_eq. exact E3.
      * right. eexists. split; [reflexivity|].
        intros [H|[_ H]]; [contradiction|].
        apply Qeq_eq_bool in H. congruence.
Qed.

(** C5, as the code has it. [get_page_size] checks no margin and has no
    error of its own: it fails exactly when one of its four [pages] calls
    divides by zero, and then with [ZeroDivisionError]; so it fails when a
    printable span is zero, and on a printable sheet it returns a plan,
    whatever the margins are against half of the paper. *)
Theorem get_page_size_failure (width_mm height_mm : Q) (sh : Sheet) :
  (get_page_size width_mm height_mm sh = Raise ZeroDivisionError <->
   pages_divides_by_zero width_mm (printable_width sh) (overlap_east sh) \/
   pages_divides_by_zero height_mm (printable_height sh) (overlap_south sh) \/
   pages_divides_by_zero width_mm (printable_height sh) (overlap_south sh) \/
   pages_divides_by_zero height_mm (printable_width sh) (overlap_east sh)) /\
  (forall e, get_page_size width_mm height_mm sh = Raise e -> e = ZeroDivisionError) /\
  (printable_width sh == 0 \/ printable_height sh == 0 ->
   get_page_size width_mm height_mm sh = Raise ZeroDivisionError) /\
  (printable sh -> exists ps, get_page_size width_mm height_mm sh = Ok ps).
Proof.
  assert (Hiff :
    get_page_size width_mm height_mm sh = Raise ZeroDivisionError <->
    pages_divides_by_zero width_mm (printable_width sh) (overlap_east sh) \/
    pages_divides_by_zero height_mm (printable_height sh) (overlap_south sh) \/
    pages_divides_by_zero width_mm (printable_height sh) (overlap_south sh) \/
    pages_divides_by_zero height_mm (printable_width sh) (overlap_east sh)).
  { unfold get_page_size.
    destruct (pages_cases width_mm (printable_width sh) (overlap_east sh))
      as [[E1 D1]|[n1 [E1 D1]]]; rewrite E1; cbn [bind]; [tauto|].
    destruct (pages_cases height_mm (printable_height sh) (overlap_south sh))
      as [[E2 D2]|[n2 [E2 D2]]]; rewrite E2; cbn [bind]; [tauto|].
    destruct (pages_cases width_mm (printable_height sh) (overlap_south sh))
      as [[E3 D3]|[n3 [E3 D3]]]; rewrite E3; cbn [bind]; [tauto|].
    destruct (pages_cases height_mm (printable_width sh) (overlap_east sh))
      as [[E4 D4]|[n4 [E4 D4]]]; rewrite E4; cbn [bind]; [tauto|].
    destruct (n1 * n2 >? n3 * n4)%Z; (split; [discriminate | tauto]). }
  split; [exact Hiff|]. split; [|split].
  - intros e. unfold get_page_size.
    destruct (pages_cases width_mm (printable_width sh) (overlap_east sh))
      as [[E1 _]|[n1 [E1 _]]]; rewrite E1; cbn [bind]; [congruence|].
    destruct (pages_cases height_mm (printable_height sh) (overlap_south sh))
      as [[E2 _]|[n2 [E2 _]]]; rewrite E2; cbn [bind]; [congruence|].
    destruct (pages_cases width_mm (printable_height sh) (overlap_south sh))
      as [[E3 _]|[n3 [E3 _]]]; rewrite E3; cbn [bind]; [congruence|].
    destruct (pages_cases height_mm (printable_width sh) (overlap_east sh))
      as [[E4 _]|[n4 [E4 _]]]; rewrite E4; cbn [bind]; [congruence|].
    destruct (n1 * n2 >? n3 * n4)%Z; discriminate.
  - intros [H|H]; apply Hiff.
    + left. left. exact H.
    + right. left. left. exact H.
  - intros Hsh.
    destruct (pages_candidates width_mm height_mm sh P Hsh) as [Hhp Hvp].
    destruct (pages_candidates width_mm height_mm sh L Hsh) as [Hhl Hvl].
    eexists. exact (get_page_size_pages _ _ _ _ _ _ _ Hhp Hvp Hhl Hvl).
Qed.

(** C5 as stated fails: on A4 an east border of 105 mm is half of the
    paper's width, and the planner returns a plan. *)
Lemma get_page_size_margin_half_paper :
  width A4 / 2 <= border_east (mkSheet 5 105 5 5 10 10 A4) /\
  get_page_size 508 254 (mkSheet 5 105 5 5 10 10 A4) =
  Ok (mkPageSize P 5 1 (100 - 10) (287 - 0)).
Proof. split; [discriminate | vm_compute; reflexivity]. Qed.

(** C5, as the code has it, on A4 with an east border of 205 mm, which leaves
    no printable width, and on the default sheet. *)
Lemma get_page_size_failure_witness :
  get_page_size 508 254 (mkSheet 5 205 5 5 10 10 A4) = Raise ZeroDivisionError /\
  exists ps, get_page_size 508 254 default_sheet = Ok ps.
Proof.
  destruct (get_page_size_failure 508 254 (mkSheet 5 205 5 5 10 10 A4))
    as (_ & _ & Hzero & _).
  destruct (get_page_size_failure 508 254 default_sheet) as (_ & _ & _ & Hok).
  split.
  - apply Hzero. left. vm_compute. reflexivity.
  - apply Hok. unfold printable. vm_compute. repeat split; discriminate.
Defined.

(** ** Pixels per millimetre *)

Lemma inch_pos (squares : Q) : 0 < squares -> 0 < squares * 25.4.
Proof.
  intros H. rewrite <- (Qmult_0_l 25.4).
  apply Qmult_lt_compat_r; [reflexivity | exact H].
Qed.

Lemma inject_Z_pos (z : Z) : (0 < z)%Z -> 0 < inject_Z z.
Proof. intros H. change 0 with (inject_Z 0). rewrite <- Zlt_Qlt. exact H. Qed.

Lemma Qmin_pos (a b : Q) : 0 < a -> 0 < b -> 0 < Qmin a b.
Proof. intros Ha Hb. apply Q.min_glb_lt; assumption. Qed.

Lemma pixels_per_mm_ok (width_pixels height_pixels : Z) (squares_wide squares_high : Q) :
  0 < squares_wide -> 0 < squares_high ->
  pixels_per_mm width_pixels height_pixels squares_wide squares_high =
  Ok (Qmin (inject_Z width_pixels / (squares_wide * 25.4))
           (inject_Z height_pixels / (squares_high * 25.4))).
Proof.
  intros Hw Hh. unfold pixels_per_mm.
  rewrite (truediv_ok _ _ (Qpos_neq_0 _ (inch_pos _ Hw))).
  rewrite (truediv_ok _ _ (Qpos_neq_0 _ (inch_pos _ Hh))).
  reflexivity.
Qed.

(** Dividing by a smaller positive scale gives more millimetres. *)
Lemma Qdiv_scale_le (a d s : Q) : 0 < a -> 0 < d -> 0 < s -> s <= a / d -> d <= a / s.
Proof.
  intros Ha Hd Hs H. apply Qle_shift_div_l; [exact Hs|].
  rewrite Qmult_comm.
  apply (Qmult_le_compat_r _ _ d) in H; [|apply Qlt_le_weak; exact Hd].
  assert (E : a / d * d == a) by (field; apply Qpos_neq_0; exact Hd).
  rewrite E in H. exact H.
Qed.

Lemma Qdiv_scale_eq (a d s : Q) : 0 < a -> 0 < d -> s == a / d -> a / s == d.
Proof.
  intros Ha Hd E. rewrite E. field. split; apply Qpos_neq_0; assumption.
Qed.

(** C6, as the code has it. The scale is the minimum of the two scales that
    the axes give, and the millimetres that [process_image_with_border]
    converts the image to are never less than the squares ask for: the axis
    that gives the minimum is converted to exactly [squares * 25.4], the
    other one to that or more. *)
Theorem pixels_per_mm_never_undersized (width_pixels height_pixels : Z)
    (squares_wide squares_high bn be bw bs : Q) :
  (0 < width_pixels)%Z -> (0 < height_pixels)%Z ->
  0 < squares_wide -> 0 < squares_high ->
  exists ppm spec,
    pixels_per_mm width_pixels height_pixels squares_wide squares_high = Ok ppm /\
    ppm = Qmin (inject_Z width_pixels / (squares_wide * 25.4))
               (inject_Z height_pixels / (squares_high * 25.4)) /\
    process_image_with_border (width_pixels, height_pixels) squares_wide squares_high
      bn be bw bs = Ok spec /\
    image_width spec = inject_Z width_pixels / ppm /\
    image_height spec = inject_Z height_pixels / ppm /\
    squares_wide * 25.4 <= image_width spec /\
    squares_high * 25.4 <= image_height spec /\
    (image_width spec == squares_wide * 25.4 \/
     image_height spec == squares_high * 25.4).
Proof.
  intros Hwp Hhp Hsw Hsh.
  apply inject_Z_pos in Hwp. apply inject_Z_pos in Hhp.
  pose proof (inch_pos _ Hsw) as Hdw. pose proof (inch_pos _ Hsh) as Hdh.
  set (a := inject_Z width_pixels / (squares_wide * 25.4)).
  set (b := inject_Z height_pixels / (squares_high * 25.4)).
  assert (Ha : 0 < a) by (apply Qdiv_pos; assumption).
  assert (Hb : 0 < b) by (apply Qdiv_pos; assumption).
  assert (Hm : 0 < Qmin a b) by (apply Qmin_pos; assumption).
  exists (Qmin a b).
  exists (mkImageSpec (inject_Z width_pixels / Qmin a b)
            (inject_Z height_pixels / Qmin a b) bw bn
            (inject_Z width_pixels / Qmin a b + bw + be)
            (inject_Z height_pixels / Qmin a b + bn + bs)).
  split; [apply pixels_per_mm_ok; assumption|].
  split; [reflexivity|].
  split.
  { unfold process_image_with_border.
    rewrite (pixels_per_mm_ok _ _ _ _ Hsw Hsh). fold a b. cbn [bind].
    rewrite !(truediv_ok _ _ (Qpos_neq_0 _ Hm)). reflexivity. }
  cbn [image_width image_height].
  split; [reflexivity|]. split; [reflexivity|].
  split; [|split].
  - apply Qdiv_scale_le; try assumption. apply Q.le_min_l.
  - apply Qdiv_scale_le; try assumption. apply Q.le_min_r.
  - destruct (Q.min_dec a b) as [E|E].
    + left. apply Qdiv_scale_eq; assumption.
    + right. apply Qdiv_scale_eq; assumption.
Qed.

(** C6 as stated fails: a 2000 x 1000 image declared 20 squares wide and 20
    high is converted to 1016 mm of width, twice the 508 mm of 20 squares. *)
Lemma process_image_with_border_oversized :
  exists spec,
    process_image_with_border (2000, 1000)%Z 20 20 5 5 5 5 = Ok spec /\
    20 * 25.4 < image_width spec /\ image_width spec == 1016.
Proof.
  eexists. split; [vm_compute; reflexivity|].
  split; reflexivity.
Qed.

(** C6, as the code has it, for 2000 x 1000 pixels and 20 x 10 squares. *)
Lemma pixels_per_mm_never_undersized_witness :
  exists ppm spec,
    pixels_per_mm 2000 1000 20 10 = Ok ppm /\
    ppm = Qmin (inject_Z 2000 / (20 * 25.4)) (inject_Z 1000 / (10 * 25.4)) /\
    process_image_with_border (2000, 1000)%Z 20 10 5 5 5 5 = Ok spec /\
    image_width spec = inject_Z 2000 / ppm /\
    image_height spec = inject_Z 1000 / ppm /\
    20 * 25.4 <= image_width spec /\
    10 * 25.4 <= image_height spec /\
    (image_width spec == 20 * 25.4 \/ image_height spec == 10 * 25.4).
Proof.
  apply (pixels_per_mm_never_undersized 2000 1000 20 10 5 5 5 5); reflexivity.
Defined.

(** ** Planning again on the printable page *)

Lemma count_pages_comp (size p p' overlap : Q) :
  p == p' -> count_pages size p overlap = count_pages size p' overlap.
Proof.
  intros E. unfold count_pages.
  assert (E1 : size / p == size / p') by (rewrite E; reflexivity).
  assert (E2 : size / (p + overlap) == size / (p' + overlap))
    by (rewrite E; reflexivity).
  rewrite (Qceiling_comp _ _ E1), (Qceiling_comp _ _ E2). reflexivity.
Qed.

Lemma count_pages_self (size : Q) : 0 < size -> count_pages size size 0 = 1%Z.
Proof.
  intros H. unfold count_pages.
  assert (E : Qceiling (size / size) = 1%Z).
  { apply Qceiling_one_iff. split; [apply Qdiv_pos; assumption|].
    apply Qdiv_le_1; [assumption | apply Qle_refl]. }
  rewrite E. reflexivity.
Qed.

Lemma count_pages_ge_1 (size printable_size overlap : Q) :
  0 < size -> 0 < printable_size -> 0 <= overlap ->
  (1 <= count_pages size printable_size overlap)%Z.
Proof.
  intros Hs Hp Ho. unfold count_pages.
  destruct (Qceiling (size / printable_size) =? 1)%Z; [lia|].
  assert (H : (0 < Qceiling (size / (printable_size + overlap)))%Z); [|lia].
  rewrite Zlt_Qlt. eapply Qlt_le_trans; [|apply Qle_ceiling].
  apply Qdiv_pos; [exact Hs | apply Qpos_plus_nonneg; assumption].
Qed.

(** C9, as the code has it. When the printable page of a plan has a positive
    width and a positive height, planning an image of that very size on that
    page taken as the paper, with no border and no overlap, gives one page by
    one page, in portrait, of the same size. *)
Theorem get_page_size_round_trip (width_mm height_mm : Q) (sh : Sheet) (ps : PageSize) :
  get_page_size width_mm height_mm sh = Ok ps ->
  0 < ps_page_width ps -> 0 < ps_page_height ps ->
  get_page_size (ps_page_width ps) (ps_page_height ps) (page_as_sheet ps) =
  Ok (mkPageSize P 1 1
        (printable_width (page_as_sheet ps) - 0)
        (printable_height (page_as_sheet ps) - 0)) /\
  printable_width (page_as_sheet ps) == ps_page_width ps /\
  printable_height (page_as_sheet ps) == ps_page_height ps.
Proof.
  intros _ Hw Hh.
  assert (Ew : printable_width (page_as_sheet ps) == ps_page_width ps).
  { unfold printable_width, page_as_sheet. cbn. ring. }
  assert (Eh : printable_height (page_as_sheet ps) == ps_page_height ps).
  { unfold printable_height, page_as_sheet. cbn. ring. }
  split; [|split; assumption].
  assert (Hsh : printable (page_as_sheet ps)).
  { unfold printable. rewrite Ew, Eh. cbn.
    repeat split; try assumption; discriminate. }
  destruct (pages_candidates (ps_page_width ps) (ps_page_height ps) _ P Hsh)
    as [Hhp Hvp].
  destruct (pages_candidates (ps_page_width ps) (ps_page_height ps) _ L Hsh)
    as [Hhl Hvl].
  rewrite (get_page_size_pages _ _ _ _ _ _ _ Hhp Hvp Hhl Hvl).
  cbn [span_horizontal span_vertical overlap_horizontal overlap_vertical
       overlap_east overlap_south page_as_sheet].
  assert (E1 : count_pages (ps_page_width ps) (printable_width (page_as_sheet ps)) 0
               = 1%Z).
  { rewrite <- (count_pages_self _ Hw). apply count_pages_comp. exact Ew. }
  assert (E2 : count_pages (ps_page_height ps) (printable_height (page_as_sheet ps)) 0
               = 1%Z).
  { rewrite <- (count_pages_self _ Hh). apply count_pages_comp. exact Eh. }
  fold (page_as_sheet ps). rewrite E1, E2.
  assert (H3 : (1 <= count_pages (ps_page_width ps)
                       (printable_height (page_as_sheet ps)) 0)%Z).
  { apply count_pages_ge_1; [assumption | rewrite Eh; assumption | discriminate]. }
  assert (H4 : (1 <= count_pages (ps_page_height ps)
                       (printable_width (page_as_sheet ps)) 0)%Z).
  { apply count_pages_ge_1; [assumption | rewrite Ew; assumption | discriminate]. }
  destruct (Z.gtb_spec (1 * 1)
    (count_pages (ps_page_width ps) (printable_height (page_as_sheet ps)) 0 *
     count_pages (ps_page_height ps) (printable_width (page_as_sheet ps)) 0))
    as [Hgt|Hle]; [nia|].
  reflexivity.
Qed.

(** C9 as stated fails: with an east overlap as wide as the printable width
    of A4 the plan for a 508 x 254 mm image has two columns and a printable
    page width of 0, and planning on that page divides by zero. *)
Lemma get_page_size_round_trip_zero_width :
  printable (mkSheet 5 5 5 5 200 10 A4) /\
  get_page_size 508 254 (mkSheet 5 5 5 5 200 10 A4) =
    Ok (mkPageSize P 2 1 (200 - 200) (287 - 0)) /\
  get_page_size (200 - 200) (287 - 0)
    (page_as_sheet (mkPageSize P 2 1 (200 - 200) (287 - 0))) =
    Raise ZeroDivisionError.
Proof.
  split; [|split].
  - unfold printable. vm_compute. repeat split; discriminate.
  - vm_compute. reflexivity.
  - vm_compute. reflexivity.
Qed.

(** C9, as the code has it, for the plan of a 508 x 254 mm image on the
    default sheet. *)
Lemma get_page_size_round_trip_witness :
  get_page_size (200 - 10) (287 - 0)
    (page_as_sheet (mkPageSize P 3 1 (200 - 10) (287 - 0))) =
  Ok (mkPageSize P 1 1
        (printable_width (page_as_sheet (mkPageSize P 3 1 (200 - 10) (287 - 0))) - 0)
        (printable_height (page_as_sheet (mkPageSize P 3 1 (200 - 10) (287 - 0))) - 0)).
Proof.
  apply (get_page_size_round_trip 508 254 default_sheet
           (mkPageSize P 3 1 (200 - 10) (287 - 0))).
  - vm_compute. reflexivity.
  - reflexivity.
  - reflexivity.
Defined.

(** ** The tiles of [split_image] *)

(** What a plan says about the [pages] calls of its orientation. *)
Lemma get_page_size_inv (width_mm height_mm : Q) (sh : Sheet) (ps : PageSize) :
  get_page_size width_mm height_mm sh = Ok ps ->
  pages width_mm (span_horizontal (ps_orientation ps) sh)
    (overlap_horizontal (ps_orientation ps) sh) = Ok (ps_pages_horizontal ps) /\
  pages height_mm (span_vertical (ps_orientation ps) sh)
    (overlap_vertical (ps_orientation ps) sh) = Ok (ps_pages_vertical ps) /\
  ps_page_width ps =
    span_horizontal (ps_orientation ps) sh -
    zero_if_one (ps_pages_horizontal ps) (overlap_horizontal (ps_orientation ps) sh) /\
  ps_page_height ps =
    span_vertical (ps_orientation ps) sh -
    zero_if_one (ps_pages_vertical ps) (overlap_vertical (ps_orientation ps) sh).
Proof.
  unfold get_page_size.
  destruct (pages width_mm (printable_width sh) (overlap_east sh))
    as [hp|] eqn:E1; [|discriminate].
  destruct (pages height_mm (printable_height sh) (overlap_south sh))
    as [vp|] eqn:E2; [|discriminate].
  destruct (pages width_mm (printable_height sh) (overlap_south sh))
    as [hl|] eqn:E3; [|discriminate].
  destruct (pages height_mm (printable_width sh) (overlap_east sh))
    as [vl|] eqn:E4; [|discriminate].
  cbn [bind]. destruct (hp * vp >? hl * vl)%Z; intros [= <-]; cbn; auto.
Qed.

Lemma Qdiv_pos_inv (a d : Q) : 0 < a -> ~ d == 0 -> 0 < a / d -> 0 < d.
Proof.
  intros Ha Hd Hq.
  destruct (Qlt_le_dec 0 d) as [H|H]; [exact H|].
  destruct (Qle_lt_or_eq _ _ H) as [H'|H']; [|contradiction].
  exfalso. apply (Qlt_irrefl 0). eapply Qlt_le_trans; [exact Hq|].
  setoid_replace (a / d) with (- (a / - d)) by (field; exact Hd).
  apply (Qopp_le_compat 0). apply Qlt_le_weak, Qdiv_pos; [exact Ha|].
  apply (Qopp_lt_compat d 0). exact H'.
Qed.

Lemma Qdiv_le_1_inv (a d : Q) : 0 < d -> a / d <= 1 -> a <= d.
Proof.
  intros Hd Hle.
  apply (Qmult_le_compat_r _ _ d) in Hle; [|apply Qlt_le_weak; exact Hd].
  rewrite Qmult_1_l in Hle.
  setoid_replace (a / d * d) with a in Hle by (field; apply Qpos_neq_0; exact Hd).
  exact Hle.
Qed.

(** An axis with one page fits in its span and overlap. *)
Lemma pages_one_fits (size printable_size overlap : Q) :
  0 < size -> 0 <= overlap ->
  pages size printable_size overlap = Ok 1%Z ->
  size <= printable_size + overlap.
Proof.
  intros Hs Ho. unfold pages.
  destruct (truediv size printable_size) as [q|] eqn:E1; [|discriminate].
  apply truediv_inv in E1. destruct E1 as [Hp ->]. cbn [bind].
  destruct (Qceiling (size / printable_size) =? 1)%Z eqn:C1.
  - intros _. apply Z.eqb_eq, Qceiling_one_iff in C1. destruct C1 as [Hpos Hle].
    pose proof (Qdiv_pos_inv _ _ Hs Hp Hpos) as Hp'.
    apply Qle_trans with printable_size.
    + apply Qdiv_le_1_inv; assumption.
    + rewrite <- (Qplus_0_r printable_size) at 1. apply Qplus_le_r. exact Ho.
  - destruct (truediv size (printable_size + overlap)) as [q|] eqn:E2; [|discriminate].
    apply truediv_inv in E2. destruct E2 as [Hd ->]. cbn [bind].
    intros [= C2]. apply Qceiling_one_iff in C2. destruct C2 as [Hpos Hle].
    apply Qdiv_le_1_inv; [|exact Hle].
    exact (Qdiv_pos_inv _ _ Hs Hd Hpos).
Qed.

(** The result of [split_image] on an image and squares of positive size,
    with the overlaps in pixels read off the orientation. *)
Lemma split_image_inv (width_pixels height_pixels : Z)
    (squares_wide squares_high : Q) (sh : Sheet) (r : Split) :
  (0 < width_pixels)%Z -> (0 < height_pixels)%Z ->
  0 < squares_wide -> 0 < squares_high ->
  split_image (width_pixels, height_pixels) squares_wide squares_high sh = Ok r ->
  exists ppm ps,
    0 < ppm /\
    get_page_size (inject_Z width_pixels / ppm) (inject_Z height_pixels / ppm) sh
      = Ok ps /\
    s_pixels_per_mm r = ppm /\
    s_orientation r = ps_orientation ps /\
    s_pages_horizontal r = ps_pages_horizontal ps /\
    s_pages_vertical r = ps_pages_vertical ps /\
    s_paper r = paper sh /\
    s_images r =
      dict_of_items
        (flat_map
           (fun x =>
              map (fun y =>
                     (format_coords x y,
                      crop_for width_pixels height_pixels
                        (ps_page_width ps * ppm) (ps_page_height ps * ppm)
                        (ppm * overlap_horizontal (ps_orientation ps) sh)
                        (ppm * overlap_vertical (ps_orientation ps) sh) x y))
                (range (ps_pages_vertical ps)))
           (range (ps_pages_horizontal ps))).
Proof.
  intros Hw Hh Hsw Hsq. unfold split_image.
  rewrite (pixels_per_mm_ok _ _ _ _ Hsw Hsq). cbn [bind].
  set (ppm := Qmin _ _).
  assert (Hppm : 0 < ppm).
  { apply Qmin_pos; apply Qdiv_pos;
      auto using inject_Z_pos, inch_pos. }
  rewrite !(truediv_ok _ _ (Qpos_neq_0 _ Hppm)). cbn [bind].
  destruct (get_page_size _ _ sh) as [ps|e] eqn:G; [|discriminate].
  cbn [bind]. intros Hr. exists ppm, ps.
  split; [exact Hppm|]. split; [exact G|].
  revert Hr. destruct (ps_orientation ps) eqn:O; intros [= <-];
    cbn [s_pixels_per_mm s_orientation s_pages_horizontal s_pages_vertical
         s_paper s_images overlap_horizontal overlap_vertical];
    auto 10.
Qed.

Lemma pixels_scale_back (pixels ppm : Q) : 0 < ppm -> pixels / ppm * ppm == pixels.
Proof. intros H. field. apply Qpos_neq_0. exact H. Qed.

(** The far edge of the one tile of a one-page axis is the edge of the
    image. *)
Lemma crop_edge_single_page (pixels ppm span overlap : Q) :
  0 < ppm -> pixels / ppm <= span + overlap ->
  Qmin pixels ((0 + 1) * ((span - zero_if_one 1 overlap) * ppm) + ppm * overlap)
  == pixels.
Proof.
  intros Hppm Hfit. apply Q.min_l.
  rewrite zero_if_one_one.
  setoid_replace ((0 + 1) * ((span - 0) * ppm) + ppm * overlap)
    with ((span + overlap) * ppm) by ring.
  rewrite <- (pixels_scale_back pixels ppm Hppm) at 1.
  apply Qmult_le_compat_r; [exact Hfit | apply Qlt_le_weak; exact Hppm].
Qed.

(** C10. When the planner gives one page by one page for an image and
    squares of positive size and overlaps that are not negative,
    [split_image] returns the single tile ["0_0"], and its crop box is the
    whole image, from (0, 0) to (width_pixels, height_pixels). *)
Theorem split_image_single_page (width_pixels height_pixels : Z)
    (squares_wide squares_high : Q) (sh : Sheet) (r : Split) :
  (0 < width_pixels)%Z -> (0 < height_pixels)%Z ->
  0 < squares_wide -> 0 < squares_high ->
  0 <= overlap_east sh -> 0 <= overlap_south sh ->
  split_image (width_pixels, height_pixels) squares_wide squares_high sh = Ok r ->
  s_pages_horizontal r = 1%Z -> s_pages_vertical r = 1%Z ->
  exists box,
    s_images r = [("0_0"%string, box)] /\
    left box == 0 /\ upper box == 0 /\
    right box == inject_Z width_pixels /\
    lower box == inject_Z height_pixels.
Proof.
  intros Hw Hh Hsw Hsq Hoe Hos Hr Hph Hpv.
  destruct (split_image_inv _ _ _ _ _ _ Hw Hh Hsw Hsq Hr)
    as (ppm & ps & Hppm & Hg & _ & _ & Eh & Ev & _ & Ei).
  rewrite Hph in Eh. rewrite Hpv in Ev.
  destruct (get_page_size_inv _ _ _ _ Hg) as (Hpw & Hpl & Ewd & Eht).
  rewrite <- Eh in Hpw, Ewd. rewrite <- Ev in Hpl, Eht.
  assert (Hov : 0 <= overlap_horizontal (ps_orientation ps) sh /\
                0 <= overlap_vertical (ps_orientation ps) sh)
    by (destruct (ps_orientation ps); cbn; auto).
  destruct Hov as [Hoh Hovv].
  assert (Hwmm : 0 < inject_Z width_pixels / ppm)
    by (apply Qdiv_pos; auto using inject_Z_pos).
  assert (Hhmm : 0 < inject_Z height_pixels / ppm)
    by (apply Qdiv_pos; auto using inject_Z_pos).
  apply (pages_one_fits _ _ _ Hwmm Hoh) in Hpw.
  apply (pages_one_fits _ _ _ Hhmm Hovv) in Hpl.
  rewrite <- Eh, <- Ev in Ei. cbn in Ei.
  eexists. split; [exact Ei|].
  cbn [left upper right lower crop_for].
  split; [apply Qmult_0_l|]. split; [apply Qmult_0_l|].
  rewrite Ewd, Eht.
  split; apply crop_edge_single_page; assumption.
Qed.

(** C10 for a 500 x 1000 pixel image of 5 x 10 squares on the default
    sheet. *)
Lemma split_image_single_page_witness :
  exists r box,
    split_image (500, 1000)%Z 5 10 default_sheet = Ok r /\
    s_images r = [("0_0"%string, box)] /\
    left box == 0 /\ upper box == 0 /\
    right box == inject_Z 500 /\ lower box == inject_Z 1000.
Proof.
  let v := eval vm_compute in (split_image (500, 1000)%Z 5 10 default_sheet) in
  match v with
  | Ok ?r =>
      assert (Hr : split_image (500, 1000)%Z 5 10 default_sheet = Ok r)
        by (vm_compute; reflexivity);
      destruct (split_image_single_page 500 1000 5 10 default_sheet r)
        as [box Hbox];
      [reflexivity | reflexivity | reflexivity | reflexivity
      | discriminate | discriminate | exact Hr | reflexivity | reflexivity
      | exists r, box; split; [exact Hr | exact Hbox]]
  end.
Defined.

(** C3, where the code misses it. A 2400 x 1000 pixel image of 24 x 10
    squares (609.6 x 254 mm) on the default sheet is planned as 3 columns by
    1 row and cut into 3 tiles, none of them empty or past the image; but
    every tile ends left of pixel column 2284, so the pixel (2300, 500) of
    the image is in no tile: the columns advance by 190 mm and show 200 mm,
    and three of them reach 580 mm only. *)
Theorem split_image_leaves_gap :
  exists r,
    split_image (2400, 1000)%Z 24 10 default_sheet = Ok r /\
    s_orientation r = P /\
    s_pages_horizontal r = 3%Z /\ s_pages_vertical r = 1%Z /\
    map fst (s_images r) = ["0_0"; "1_0"; "2_0"]%string /\
    Forall (fun tile => 0 <= left (snd tile) /\ left (snd tile) < right (snd tile) /\
                        right (snd tile) <= inject_Z 2400 /\
                        upper (snd tile) == 0 /\ lower (snd tile) == inject_Z 1000)
           (s_images r) /\
    Forall (fun tile => right (snd tile) < 2284) (s_images r) /\
    (2300 < inject_Z 2400 /\ 500 < inject_Z 1000) /\
    Forall (fun tile => ~ in_box (snd tile) 2300 500) (s_images r).
Proof.
  eexists. split; [vm_compute; reflexivity|].
  cbn [s_orientation s_pages_horizontal s_pages_vertical s_images].
  split; [reflexivity|]. split; [reflexivity|]. split; [reflexivity|].
  split; [reflexivity|].
  split; [repeat constructor; cbn; discriminate|].
  split; [repeat constructor|].
  split; [split; reflexivity|].
  repeat constructor; intros (_ & H & _); vm_compute in H; discriminate.
Qed.

(** ** Registration marks *)

Lemma Qle_bool_true (a b : Q) : a <= b -> Qle_bool a b = true.
Proof. apply Qle_bool_iff. Qed.

Lemma Qle_bool_false (a b : Q) : b < a -> Qle_bool a b = false.
Proof.
  intros H. destruct (Qle_bool a b) eqn:E; [|reflexivity].
  apply Qle_bool_iff in E. exfalso. exact (Qlt_not_le _ _ H E).
Qed.

(** A call of [tick] draws its directions one after the other: west, east,
    north, south. *)
Lemma tick_directions (page_width page_height x y size gap : Q) (n e s w dash : bool) :
  tick page_width page_height x y size gap n e s w dash =
  (if w then tick page_width page_height x y size gap false false false true dash
   else []) ++
  (if e then tick page_width page_height x y size gap false true false false dash
   else []) ++
  (if n then tick page_width page_height x y size gap true false false false dash
   else []) ++
  (if s then tick page_width page_height x y size gap false false true false dash
   else []).
Proof. destruct n, e, s, w; reflexivity. Qed.

Lemma on_sheet_draw (page_width page_height : Q) (dash : bool) (x1 y1 x2 y2 : Q) :
  (0 <= x1 /\ x1 <= page_width) -> (0 <= x2 /\ x2 <= page_width) ->
  (0 <= y1 /\ y1 <= page_height) -> (0 <= y2 /\ y2 <= page_height) ->
  on_sheet page_width page_height (draw dash x1 y1 x2 y2).
Proof. intros. destruct dash; cbn; auto. Qed.

(** C7, as the code has it. For an anchor on the sheet and a gap between 0
    and the mark length: a mark whose anchor is within one mark length of
    the sheet edge it points to runs from the gap to that edge exactly, and
    any other mark runs from the gap to one mark length away from the
    anchor; either way the line is on the sheet when the anchor is at least
    the gap away from that edge.  A call with several directions draws the
    mark of each, west, east, north, south. *)
Theorem tick_reaches_edge (page_width page_height x y size gap : Q) (dash : bool) :
  0 <= gap -> gap <= size ->
  0 <= x -> x <= page_width -> 0 <= y -> y <= page_height ->
  ((x <= size ->
    tick page_width page_height x y size gap false false false true dash =
    [draw dash (x - gap) y 0 y]) /\
   (size < x ->
    tick page_width page_height x y size gap false false false true dash =
    [draw dash (x - gap) y (x - size) y]) /\
   (gap <= x ->
    Forall (on_sheet page_width page_height)
      (tick page_width page_height x y size gap false false false true dash))) /\
  ((page_width - x <= size ->
    tick page_width page_height x y size gap false true false false dash =
    [draw dash (x + gap) y page_width y]) /\
   (size < page_width - x ->
    tick page_width page_height x y size gap false true false false dash =
    [draw dash (x + gap) y (x + size) y]) /\
   (gap <= page_width - x ->
    Forall (on_sheet page_width page_height)
      (tick page_width page_height x y size gap false true false false dash))) /\
  ((y <= size ->
    tick page_width page_height x y size gap true false false false dash =
    [draw dash x (y - gap) x 0]) /\
   (size < y ->
    tick page_width page_height x y size gap true false false false dash =
    [draw dash x (y - gap) x (y - size)]) /\
   (gap <= y ->
    Forall (on_sheet page_width page_height)
      (tick page_width page_height x y size gap true false false false dash))) /\
  ((page_height - y <= size ->
    tick page_width page_height x y size gap false false true false dash =
    [draw dash x (y + gap) x page_height]) /\
   (size < page_height - y ->
    tick page_width page_height x y size gap false false true false dash =
    [draw dash x (y + gap) x (y + size)]) /\
   (gap <= page_height - y ->
    Forall (on_sheet page_width page_height)
      (tick page_width page_height x y size gap false false true false dash))) /\
  (forall n e s w,
    tick page_width page_height x y size gap n e s w dash =
    (if w then tick page_width page_height x y size gap false false false true dash
     else []) ++
    (if e then tick page_width page_height x y size gap false true false false dash
     else []) ++
    (if n then tick page_width page_height x y size gap true false false false dash
     else []) ++
    (if s then tick page_width page_height x y size gap false false true false dash
     else [])).
Proof.
  intros Hg Hgs Hx0 Hx1 Hy0 Hy1.
  split; [|split; [|split; [|split; [|intros; apply tick_directions]]]];
    unfold tick; cbn [app]; fold (draw dash).
  - split; [|split].
    + intros H. rewrite (Qle_bool_true _ _ H). reflexivity.
    + intros H. rewrite (Qle_bool_false _ _ H). reflexivity.
    + intros H. constructor; [|constructor].
      destruct (Qle_bool x size) eqn:E;
        [apply Qle_bool_iff in E | apply not_true_iff_false in E;
                                   rewrite Qle_bool_iff in E; apply Qnot_le_lt in E];
        apply on_sheet_draw; split; lra.
  - split; [|split].
    + intros H. rewrite (Qle_bool_true _ _ H). reflexivity.
    + intros H. rewrite (Qle_bool_false _ _ H). reflexivity.
    + intros H. constructor; [|constructor].
      destruct (Qle_bool (page_width - x) size) eqn:E;
        [apply Qle_bool_iff in E | apply not_true_iff_false in E;
                                   rewrite Qle_bool_iff in E; apply Qnot_le_lt in E];
        apply on_sheet_draw; split; lra.
  - split; [|split].
    + intros H. rewrite (Qle_bool_true _ _ H). reflexivity.
    + intros H. rewrite (Qle_bool_false _ _ H). reflexivity.
    + intros H. constructor; [|constructor].
      destruct (Qle_bool y size) eqn:E;
        [apply Qle_bool_iff in E | apply not_true_iff_false in E;
                                   rewrite Qle_bool_iff in E; apply Qnot_le_lt in E];
        apply on_sheet_draw; split; lra.
  - split; [|split].
    + intros H. rewrite (Qle_bool_true _ _ H). reflexivity.
    + intros H. rewrite (Qle_bool_false _ _ H). reflexivity.
    + intros H. constructor; [|constructor].
      destruct (Qle_bool (page_height - y) size) eqn:E;
        [apply Qle_bool_iff in E | apply not_true_iff_false in E;
                                   rewrite Qle_bool_iff in E; apply Qnot_le_lt in E];
        apply on_sheet_draw; split; lra.
Qed.

(** C7 as stated fails: with no west border the top left mark of [make_pdf]
    is anchored at x = 0, within one mark length of the west edge, and its
    west line is drawn from x = -1 to x = 0, off the sheet. *)
Lemma tick_west_off_sheet :
  0 <= 5 /\
  tick 210 297 0 5 5 1 false false false true false = [pdf_line (0 - 1) 5 0 5] /\
  0 - 1 < 0 /\
  ~ Forall (on_sheet 210 297) (tick 210 297 0 5 5 1 false false false true false).
Proof.
  split; [discriminate|]. split; [reflexivity|]. split; [reflexivity|].
  intros H. inversion H as [|op ops Hop _]; subst.
  destruct Hop as ((Hneg & _) & _). apply Hneg. reflexivity.
Qed.

(** C7, as the code has it, for marks of the default sheet of [make_pdf]. *)
Lemma tick_reaches_edge_witness :
  tick 210 297 5 292 5 1 false false false true true = [draw true (5 - 1) 292 0 292] /\
  tick 210 297 5 292 5 1 false false true false true = [draw true 5 (292 + 1) 5 297] /\
  tick 210 297 195 5 5 1 false true false false false =
    [draw false (195 + 1) 5 (195 + 5) 5] /\
  Forall (on_sheet 210 297) (tick 210 297 195 5 5 1 true false false false false).
Proof.
  assert (H : 0 <= 1 /\ 1 <= 5 /\ 0 <= 5 /\ 5 <= 210 /\ 0 <= 292 /\ 292 <= 297 /\
              0 <= 195 /\ 195 <= 210 /\ 5 <= 297)
    by (repeat split; discriminate).
  destruct H as (H1 & H2 & H3 & H4 & H5 & H6 & H7 & H8 & H9).
  destruct (tick_reaches_edge 210 297 5 292 5 1 true H1 H2 H3 H4 H5 H6)
    as ((Hw & _) & _ & _ & (Hs & _) & _).
  destruct (tick_reaches_edge 210 297 195 5 5 1 false H1 H2 H7 H8 H3 H9)
    as (_ & (_ & He & _) & (_ & _ & Hn) & _).
  split; [apply Hw; discriminate|].
  split; [apply Hs; discriminate|].
  split; [apply He; reflexivity|].
  apply Hn. discriminate.
Defined.

(** ** Tile names: ['{}_{}'.format(x, y)] and [re.match(r'(\d+)_(\d+)', ...)] *)

Lemma span_digits_nondigit (s : string) :
  starts_nondigit s -> span_digits s = (EmptyString, s).
Proof. destruct s as [|c s]; cbn; [reflexivity|]. intros ->. reflexivity. Qed.

Lemma span_digits_uint (u : Decimal.uint) (rest : string) :
  starts_nondigit rest ->
  span_digits (NilEmpty.string_of_uint u ++ rest) =
  (NilEmpty.string_of_uint u, rest).
Proof.
  intros Hrest.
  induction u; cbn [NilEmpty.string_of_uint String.append];
    try (cbn [span_digits]; change (is_digit _) with true; cbv iota;
         rewrite IHu; reflexivity).
  apply span_digits_nondigit. exact Hrest.
Qed.

Lemma span_digits_uint_end (u : Decimal.uint) :
  span_digits (NilEmpty.string_of_uint u) =
  (NilEmpty.string_of_uint u, EmptyString).
Proof.
  induction u; cbn [NilEmpty.string_of_uint];
    try (cbn [span_digits]; change (is_digit _) with true; cbv iota;
         rewrite IHu; reflexivity).
  reflexivity.
Qed.

Lemma string_of_uint_nonempty (u : Decimal.uint) :
  u <> Decimal.Nil ->
  exists c s, NilEmpty.string_of_uint u = String c s.
Proof. destruct u; [congruence | cbn; eauto ..]. Qed.

Lemma int_of_digits_uint (u : Decimal.uint) :
  int_of_digits (NilEmpty.string_of_uint u) = Z.of_uint u.
Proof. unfold int_of_digits. rewrite NilEmpty.usu. reflexivity. Qed.

(** The decimal digits of an int that is not negative. *)
Lemma str_int_nonneg (z : Z) :
  (0 <= z)%Z ->
  exists u, u <> Decimal.Nil /\
            str_int z = NilEmpty.string_of_uint u /\ Z.of_uint u = z.
Proof.
  intros Hz. destruct z as [|p|p]; [| |lia].
  - exists (Decimal.D0 Decimal.Nil). repeat split. discriminate.
  - exists (Pos.to_uint p).
    pose proof (Unsigned.to_uint_nonnil p) as Hnil.
    split; [exact Hnil|]. split.
    + unfold str_int. cbn [Z.to_int NilZero.string_of_int].
      destruct (Pos.to_uint p); [congruence | reflexivity ..].
    + unfold Z.of_uint. rewrite DecimalPos.Unsigned.of_to. reflexivity.
Qed.

Lemma int_of_digits_str_int (z : Z) : (0 <= z)%Z -> int_of_digits (str_int z) = z.
Proof.
  intros Hz. destruct (str_int_nonneg z Hz) as (u & _ & -> & <-).
  apply int_of_digits_uint.
Qed.

(** The name of a tile is matched back into its two numbers. *)
Lemma match_coords_format (x y : Z) :
  (0 <= x)%Z -> (0 <= y)%Z ->
  match_coords (format_coords x y) = Some (str_int x, str_int y).
Proof.
  intros Hx Hy.
  destruct (str_int_nonneg x Hx) as (ux & Hux & Ex & _).
  destruct (str_int_nonneg y Hy) as (uy & Huy & Ey & _).
  unfold format_coords, match_coords. rewrite Ex, Ey.
  rewrite span_digits_uint by reflexivity.
  destruct (string_of_uint_nonempty ux Hux) as (c1 & s1 & E1).
  destruct (string_of_uint_nonempty uy Huy) as (c2 & s2 & E2).
  rewrite E1. cbn [String.append].
  rewrite span_digits_uint_end, E2. reflexivity.
Qed.

Lemma format_coords_inj (x y x' y' : Z) :
  (0 <= x)%Z -> (0 <= y)%Z -> (0 <= x')%Z -> (0 <= y')%Z ->
  format_coords x y = format_coords x' y' -> x = x' /\ y = y'.
Proof.
  intros Hx Hy Hx' Hy' E.
  pose proof (match_coords_format x y Hx Hy) as M.
  rewrite E, (match_coords_format x' y' Hx' Hy') in M.
  injection M as E1 E2.
  rewrite <- (int_of_digits_str_int x Hx), <- (int_of_digits_str_int x' Hx').
  rewrite <- (int_of_digits_str_int y Hy), <- (int_of_digits_str_int y' Hy').
  rewrite E1, E2. split; reflexivity.
Qed.

(** ** The dict of tiles *)

Lemma in_range (n x : Z) : In x (range n) <-> (0 <= x < n)%Z.
Proof.
  unfold range. rewrite in_map_iff. split.
  - intros (k & <- & Hk). apply in_seq in Hk. lia.
  - intros Hx. exists (Z.to_nat x). split; [lia|]. apply in_seq. lia.
Qed.

Lemma range_NoDup (n : Z) : NoDup (range n).
Proof.
  unfold range. apply NoDup_map_NoDup_ForallPairs; [|apply seq_NoDup].
  intros a b _ _. apply Nat2Z.inj.
Qed.

Lemma length_range (n : Z) : List.length (range n) = Z.to_nat n.
Proof. unfold range. rewrite length_map, length_seq. reflexivity. Qed.

Lemma list_prod_NoDup {A B : Type} (xs : list A) (ys : list B) :
  NoDup xs -> NoDup ys -> NoDup (list_prod xs ys).
Proof.
  intros Hxs Hys. induction Hxs as [|x xs Hx Hxs IH]; cbn [list_prod].
  - constructor.
  - apply NoDup_app.
    + apply NoDup_map_NoDup_ForallPairs; [|exact Hys].
      intros a b _ _ [= ->]. reflexivity.
    + exact IH.
    + intros [a b] Hin Hin'. apply in_map_iff in Hin.
      destruct Hin as (b' & [= <- <-] & _).
      apply in_prod_iff in Hin'. destruct Hin' as [Hin' _]. contradiction.
Qed.

(** The comprehension over [x] and [y] is a map over the grid. *)
Lemma flat_map_grid {A B C : Type} (f : A -> B -> C) (xs : list A) (ys : list B) :
  flat_map (fun x => map (fun y => f x y) ys) xs =
  map (fun p => f (fst p) (snd p)) (list_prod xs ys).
Proof.
  induction xs as [|x xs IH]; cbn [flat_map list_prod map]; [reflexivity|].
  rewrite map_app, map_map, IH. reflexivity.
Qed.

Lemma dict_set_fresh {V : Type} (d : list (string * V)) (k : string) (v : V) :
  ~ In k (map fst d) -> dict_set d k v = d ++ [(k, v)].
Proof.
  induction d as [|[k' v'] d IH]; cbn [dict_set map fst In app]; [reflexivity|].
  intros Hk. destruct (String.eqb_spec k' k) as [->|_]; [tauto|].
  rewrite IH by tauto. reflexivity.
Qed.

Lemma fold_dict_set_fresh {V : Type} (items d : list (string * V)) :
  NoDup (map fst (d ++ items)) ->
  fold_left (fun d kv => dict_set d (fst kv) (snd kv)) items d = d ++ items.
Proof.
  revert d. induction items as [|[k v] items IH]; intros d Hnd; cbn [fold_left].
  - rewrite app_nil_r. reflexivity.
  - cbn [fst snd]. rewrite dict_set_fresh.
    + rewrite IH; rewrite <- app_assoc; [reflexivity | exact Hnd].
    + rewrite map_app in Hnd. cbn [map fst] in Hnd.
      apply NoDup_remove_2 in Hnd. intros Hin. apply Hnd.
      apply in_or_app. left. exact Hin.
Qed.

(** A dict built from items with distinct keys is the list of the items. *)
Lemma dict_of_items_NoDup {V : Type} (items : list (string * V)) :
  NoDup (map fst items) -> dict_of_items items = items.
Proof. intros H. unfold dict_of_items. rewrite fold_dict_set_fresh; auto. Qed.

(** The names of the tiles of a grid are distinct, so the dict of
    [split_image] holds one tile for every [x] and [y] of the ranges. *)
Lemma tiles_grid (g : Z -> Z -> Box) (ph pv : Z) :
  dict_of_items
    (flat_map (fun x => map (fun y => (format_coords x y, g x y)) (range pv))
       (range ph)) =
  map (fun p => (format_coords (fst p) (snd p), g (fst p) (snd p)))
    (list_prod (range ph) (range pv)).
Proof.
  rewrite (flat_map_grid (fun x y => (format_coords x y, g x y))).
  apply dict_of_items_NoDup. rewrite map_map. cbn [fst].
  apply NoDup_map_NoDup_ForallPairs.
  - intros [x y] [x' y'] Hin Hin' E. cbn [fst snd] in E.
    apply in_prod_iff in Hin, Hin'. rewrite !in_range in Hin, Hin'.
    destruct (format_coords_inj x y x' y') as [-> ->]; try lia; [exact E|].
    reflexivity.
  - apply list_prod_NoDup; apply range_NoDup.
Qed.

(** X1. [split_image] returns [pages_horizontal * pages_vertical] tiles, named
    after the grid positions, column by column, for an image and squares of
    positive size. *)
Lemma split_image_tile_count (width_pixels height_pixels : Z)
    (squares_wide squares_high : Q) (sh : Sheet) (r : Split) :
  (0 < width_pixels)%Z -> (0 < height_pixels)%Z ->
  0 < squares_wide -> 0 < squares_high ->
  split_image (width_pixels, height_pixels) squares_wide squares_high sh = Ok r ->
  List.length (s_images r) =
    (Z.to_nat (s_pages_horizontal r) * Z.to_nat (s_pages_vertical r))%nat /\
  map fst (s_images r) =
    map (fun p => format_coords (fst p) (snd p))
      (list_prod (range (s_pages_horizontal r)) (range (s_pages_vertical r))).
Proof.
  intros Hw Hh Hsw Hsq Hr.
  destruct (split_image_inv _ _ _ _ _ _ Hw Hh Hsw Hsq Hr)
    as (ppm & ps & _ & _ & _ & _ & -> & -> & _ & ->).
  rewrite tiles_grid. split.
  - rewrite length_map, length_prod, !length_range. reflexivity.
  - rewrite map_map. reflexivity.
Qed.

(** ** The marks of a page *)

Lemma tick_solid (page_width page_height x y size gap : Q) (n e s w : bool) :
  Forall is_solid (tick page_width page_height x y size gap n e s w false).
Proof.
  unfold tick.
  destruct n, e, s, w; cbn [app]; repeat constructor;
    match goal with |- is_solid (if ?b then _ else _) => destruct b; exact I end.
Qed.

Lemma tick_dashed (page_width page_height x y size gap : Q) (n e s w : bool) :
  Forall is_dashed (tick page_width page_height x y size gap n e s w true).
Proof.
  unfold tick.
  destruct n, e, s, w; cbn [app]; repeat constructor;
    match goal with |- is_dashed (if ?b then _ else _) => destruct b; exact I end.
Qed.

Lemma corner_marks_solid (pw ph bn bw im_w im_h : Q) :
  Forall is_solid (corner_marks pw ph bn bw im_w im_h) /\
  List.length (corner_marks pw ph bn bw im_w im_h) = 8%nat.
Proof.
  unfold corner_marks. split.
  - rewrite !Forall_app. split; [|split; [|split]]; apply tick_solid.
  - rewrite !length_app. reflexivity.
Qed.

Lemma east_edge_marks_dashed (pw ph bn be im_h : Q) :
  Forall is_dashed (east_edge_marks pw ph bn be im_h) /\
  List.length (east_edge_marks pw ph bn be im_h) = 2%nat.
Proof.
  unfold east_edge_marks. split.
  - rewrite Forall_app. split; apply tick_dashed.
  - rewrite length_app. reflexivity.
Qed.

Lemma south_edge_marks_dashed (pw ph bs bw im_w : Q) :
  Forall is_dashed (south_edge_marks pw ph bs bw im_w) /\
  List.length (south_edge_marks pw ph bs bw im_w) = 2%nat.
Proof.
  unfold south_edge_marks. split.
  - rewrite Forall_app. split; apply tick_dashed.
  - rewrite length_app. reflexivity.
Qed.

(** The page that [make_pdf] draws for the tile named after [x] and [y]. *)
Lemma make_pdf_page_grid (image_size : Box -> Z * Z) (images : Split)
    (x y : Z) (image : Box) :
  ~ s_pixels_per_mm images == 0 ->
  (0 <= x)%Z -> (0 <= y)%Z ->
  make_pdf_page image_size images (format_coords x y) image =
  let '(border_north, border_east, border_south, border_west) := s_border images in
  let '(page_width, page_height) := sheet_size images in
  let im_width_mm := inject_Z (fst (image_size image)) / s_pixels_per_mm images in
  let im_height_mm := inject_Z (snd (image_size image)) / s_pixels_per_mm images in
  Ok ([pdf_add_page] ++
      corner_marks page_width page_height border_north border_west
        im_width_mm im_height_mm ++
      (if negb (x =? s_pages_horizontal images - 1)%Z
       then east_edge_marks page_width page_height border_north border_east
              im_height_mm
       else []) ++
      (if negb (y =? s_pages_vertical images - 1)%Z
       then south_edge_marks page_width page_height border_south border_west
              im_width_mm
       else []) ++
      [pdf_image (format_coords x y) border_west border_north
         im_width_mm im_height_mm]).
Proof.
  intros Hppm Hx Hy. unfold make_pdf_page, sheet_size.
  rewrite (match_coords_format x y Hx Hy). cbn [bind fst snd].
  rewrite (int_of_digits_str_int x Hx), (int_of_digits_str_int y Hy).
  destruct (s_border images) as [[[bn be] bs] bw].
  destruct (image_size image) as [im_width im_height]. cbn [fst snd].
  rewrite !(truediv_ok _ _ Hppm). cbn [bind].
  unfold corner_marks, east_edge_marks, south_edge_marks.
  destruct (s_orientation images); rewrite <- !app_assoc; reflexivity.
Qed.

(** C8. Every tile that [split_image] returns is named after a grid
    position [x], [y] of the ranges, and the page that [make_pdf] draws for
    it has the four solid corner marks, then the dashed east pair exactly
    when [x < pages_horizontal - 1], then the dashed south pair exactly when
    [y < pages_vertical - 1], then the image. *)
Theorem make_pdf_page_marks (image_size : Box -> Z * Z)
    (width_pixels height_pixels : Z) (squares_wide squares_high : Q)
    (sh : Sheet) (r : Split) (coords : string) (image : Box) :
  (0 < width_pixels)%Z -> (0 < height_pixels)%Z ->
  0 < squares_wide -> 0 < squares_high ->
  split_image (width_pixels, height_pixels) squares_wide squares_high sh = Ok r ->
  In (coords, image) (s_images r) ->
  exists x y,
    coords = format_coords x y /\
    (0 <= x < s_pages_horizontal r)%Z /\ (0 <= y < s_pages_vertical r)%Z /\
    let '(border_north, border_east, border_south, border_west) := s_border r in
    let '(page_width, page_height) := sheet_size r in
    let im_width_mm := inject_Z (fst (image_size image)) / s_pixels_per_mm r in
    let im_height_mm := inject_Z (snd (image_size image)) / s_pixels_per_mm r in
    let corners := corner_marks page_width page_height border_north border_west
                     im_width_mm im_height_mm in
    let east := east_edge_marks page_width page_height border_north border_east
                  im_height_mm in
    let south := south_edge_marks page_width page_height border_south border_west
                   im_width_mm in
    make_pdf_page image_size r coords image =
      Ok ([pdf_add_page] ++ corners ++
          (if (x <? s_pages_horizontal r - 1)%Z then east else []) ++
          (if (y <? s_pages_vertical r - 1)%Z then south else []) ++
          [pdf_image coords border_west border_north im_width_mm im_height_mm]) /\
    (Forall is_solid corners /\ List.length corners = 8%nat) /\
    (Forall is_dashed east /\ List.length east = 2%nat) /\
    (Forall is_dashed south /\ List.length south = 2%nat).
Proof.
  intros Hw Hh Hsw Hsq Hr Hin.
  destruct (split_image_inv _ _ _ _ _ _ Hw Hh Hsw Hsq Hr)
    as (ppm & ps & Hppm & _ & Eppm & _ & Eph & Epv & _ & Ei).
  rewrite Ei, tiles_grid in Hin. apply in_map_iff in Hin.
  destruct Hin as ([x y] & [= <- <-] & Hxy). cbn [fst snd].
  apply in_prod_iff in Hxy. rewrite !in_range, <- Eph, <- Epv in Hxy.
  destruct Hxy as [Hx Hy].
  exists x, y. split; [reflexivity|]. split; [exact Hx|]. split; [exact Hy|].
  assert (Hnz : ~ s_pixels_per_mm r == 0)
    by (rewrite Eppm; apply Qpos_neq_0; exact Hppm).
  rewrite (make_pdf_page_grid image_size r x y _ Hnz) by lia.
  destruct (s_border r) as [[[bn be] bs] bw].
  destruct (sheet_size r) as [pw ph]. cbv zeta.
  replace (negb (x =? s_pages_horizontal r - 1)%Z)
    with (x <? s_pages_horizontal r - 1)%Z
    by (destruct (Z.ltb_spec x (s_pages_horizontal r - 1)),
                 (Z.eqb_spec x (s_pages_horizontal r - 1)); cbn; lia || reflexivity).
  replace (negb (y =? s_pages_vertical r - 1)%Z)
    with (y <? s_pages_vertical r - 1)%Z
    by (destruct (Z.ltb_spec y (s_pages_vertical r - 1)),
                 (Z.eqb_spec y (s_pages_vertical r - 1)); cbn; lia || reflexivity).
  split; [reflexivity|].
  split; [apply corner_marks_solid|].
  split; [apply east_edge_marks_dashed | apply south_edge_marks_dashed].
Qed.

(** C8 for the middle tile of a 2400 x 1000 pixel image of 24 x 10 squares
    on the default sheet. *)
Lemma make_pdf_page_marks_witness :
  exists r x y,
    split_image (2400, 1000)%Z 24 10 default_sheet = Ok r /\
    "1_0"%string = format_coords x y /\
    (0 <= x < s_pages_horizontal r)%Z /\ (0 <= y < s_pages_vertical r)%Z /\
    (x <? s_pages_horizontal r - 1)%Z = true /\
    (y <? s_pages_vertical r - 1)%Z = false.
Proof.
  let v := eval vm_compute in (split_image (2400, 1000)%Z 24 10 default_sheet) in
  match v with
  | Ok ?r =>
      assert (Hr : split_image (2400, 1000)%Z 24 10 default_sheet = Ok r)
        by (vm_compute; reflexivity);
      match eval cbv [s_images] in (s_images r) with
      | _ :: (?c, ?b) :: _ =>
          destruct (make_pdf_page_marks (fun _ => (394, 1000)%Z)
                      2400 1000 24 10 default_sheet r c b)
            as (x & y & Ec & Hx & Hy & _);
          [reflexivity | reflexivity | reflexivity | reflexivity | exact Hr
          | right; left; reflexivity
          | exists r, x, y ]
      end
  end.
  split; [exact Hr|]. split; [exact Ec|]. split; [exact Hx|]. split; [exact Hy|].
  cbn [s_pages_horizontal s_pages_vertical] in *.
  assert (E : 1%Z = x /\ 0%Z = y).
  { apply (format_coords_inj 1 0 x y); try lia. exact Ec. }
  destruct E as [<- <-]. split; reflexivity.
Defined.

(** ** The printable page of the chosen orientation *)

(** C4. For an image of positive size on a printable sheet the planner
    returns the page counts that [pages] gives for the spans and overlaps of
    the orientation it chose, at least one on each axis; the page width it
    returns is that orientation's horizontal span less its overlap when the
    grid has more than one column, and the span itself when it has exactly
    one; the page height likewise, with the vertical span, the vertical
    overlap and the rows. *)
Theorem get_page_size_page_dimensions (width_mm height_mm : Q) (sh : Sheet) :
  0 < width_mm -> 0 < height_mm -> printable sh ->
  exists ps,
    get_page_size width_mm height_mm sh = Ok ps /\
    pages width_mm (span_horizontal (ps_orientation ps) sh)
      (overlap_horizontal (ps_orientation ps) sh) = Ok (ps_pages_horizontal ps) /\
    pages height_mm (span_vertical (ps_orientation ps) sh)
      (overlap_vertical (ps_orientation ps) sh) = Ok (ps_pages_vertical ps) /\
    (1 <= ps_pages_horizontal ps)%Z /\ (1 <= ps_pages_vertical ps)%Z /\
    ((1 < ps_pages_horizontal ps)%Z ->
     ps_page_width ps ==
     span_horizontal (ps_orientation ps) sh - overlap_horizontal (ps_orientation ps) sh) /\
    (ps_pages_horizontal ps = 1%Z ->
     ps_page_width ps == span_horizontal (ps_orientation ps) sh) /\
    ((1 < ps_pages_vertical ps)%Z ->
     ps_page_height ps ==
     span_vertical (ps_orientation ps) sh - overlap_vertical (ps_orientation ps) sh) /\
    (ps_pages_vertical ps = 1%Z ->
     ps_page_height ps == span_vertical (ps_orientation ps) sh).
Proof.
  intros Hw Hh Hsh.
  destruct (pages_candidates width_mm height_mm sh P Hsh) as [Hhp Hvp].
  destruct (pages_candidates width_mm height_mm sh L Hsh) as [Hhl Hvl].
  pose proof (get_page_size_pages _ _ _ _ _ _ _ Hhp Hvp Hhl Hvl) as Hg.
  destruct (printable_span P sh Hsh) as (HsP & HvP & HoP & HovP).
  destruct (printable_span L sh Hsh) as (HsL & HvL & HoL & HovL).
  pose proof (count_pages_ge_1 _ _ _ Hw HsP HoP) as H1.
  pose proof (count_pages_ge_1 _ _ _ Hh HvP HovP) as H2.
  pose proof (count_pages_ge_1 _ _ _ Hw HsL HoL) as H3.
  pose proof (count_pages_ge_1 _ _ _ Hh HvL HovL) as H4.
  eexists. split; [exact Hg|].
  match goal with |- context [if ?b then _ else _] => destruct b end;
    cbn [ps_pages_horizontal ps_pages_vertical ps_orientation ps_page_width
         ps_page_height];
    (split; [assumption|]); (split; [assumption|]);
    (split; [assumption|]); (split; [assumption|]);
    cbn [span_horizontal span_vertical overlap_horizontal overlap_vertical];
    (split; [|split; [|split]]); intros H;
    try (rewrite zero_if_one_other by lia; reflexivity);
    rewrite H, zero_if_one_one; unfold Qminus; change (- 0) with 0;
    apply Qplus_0_r.
Qed.

(** C4 for a 508 x 254 mm image on the default sheet: three columns, each
    the printable width less the east overlap, and one row of the full
    printable height. *)
Lemma get_page_size_page_dimensions_witness :
  exists ps,
    get_page_size 508 254 default_sheet = Ok ps /\
    ps_orientation ps = P /\
    ps_pages_horizontal ps = 3%Z /\ ps_pages_vertical ps = 1%Z /\
    ps_page_width ps == printable_width default_sheet - overlap_east default_sheet /\
    ps_page_height ps == printable_height default_sheet.
Proof.
  destruct (get_page_size_page_dimensions 508 254 default_sheet)
    as (ps & Hg & _ & _ & _ & _ & Hwide & _ & _ & Hone);
    [reflexivity | reflexivity | exact default_sheet_printable |].
  assert (E : get_page_size 508 254 default_sheet =
              Ok (mkPageSize P 3 1 (200 - 10) (287 - 0)))
    by (vm_compute; reflexivity).
  rewrite E in Hg. injection Hg as Hps. subst ps.
  eexists. split; [exact E|].
  cbn [ps_orientation ps_pages_horizontal ps_pages_vertical] in *.
  split; [reflexivity|]. split; [reflexivity|]. split; [reflexivity|].
  split.
  - apply Hwide. reflexivity.
  - apply Hone. reflexivity.
Defined.

(** * Further properties *)

(** ** The grid of tiles *)

(** X1 at a 2400 x 1000 pixel image of 24 x 10 squares on the default
    sheet. *)
Lemma split_image_tile_count_witness :
  exists r,
    split_image (2400, 1000)%Z 24 10 default_sheet = Ok r /\
    List.length (s_images r) =
      (Z.to_nat (s_pages_horizontal r) * Z.to_nat (s_pages_vertical r))%nat /\
    map fst (s_images r) =
      map (fun p => format_coords (fst p) (snd p))
        (list_prod (range (s_pages_horizontal r)) (range (s_pages_vertical r))).
Proof.
  let v := eval vm_compute in (split_image (2400, 1000)%Z 24 10 default_sheet) in
  match v with
  | Ok ?r =>
      assert (Hr : split_image (2400, 1000)%Z 24 10 default_sheet = Ok r)
        by (vm_compute; reflexivity);
      exists r; split; [exact Hr|];
      apply (split_image_tile_count 2400 1000 24 10 default_sheet r);
      [reflexivity | reflexivity | reflexivity | reflexivity | exact Hr]
  end.
Defined.

(** The tiles of [split_image], one for every position of the grid, with the
    plan they are cut by. *)
Lemma split_image_tiles (width_pixels height_pixels : Z)
    (squares_wide squares_high : Q) (sh : Sheet) (r : Split) :
  (0 < width_pixels)%Z -> (0 < height_pixels)%Z ->
  0 < squares_wide -> 0 < squares_high ->
  split_image (width_pixels, height_pixels) squares_wide squares_high sh = Ok r ->
  exists ps,
    0 < s_pixels_per_mm r /\
    get_page_size (inject_Z width_pixels / s_pixels_per_mm r)
      (inject_Z height_pixels / s_pixels_per_mm r) sh = Ok ps /\
    ps_orientation ps = s_orientation r /\
    ps_pages_horizontal ps = s_pages_horizontal r /\
    ps_pages_vertical ps = s_pages_vertical r /\
    s_images r =
      map (fun p =>
             (format_coords (fst p) (snd p),
              crop_for width_pixels height_pixels
                (ps_page_width ps * s_pixels_per_mm r)
                (ps_page_height ps * s_pixels_per_mm r)
                (s_pixels_per_mm r * overlap_horizontal (s_orientation r) sh)
                (s_pixels_per_mm r * overlap_vertical (s_orientation r) sh)
                (fst p) (snd p)))
        (list_prod (range (s_pages_horizontal r)) (range (s_pages_vertical r))).
Proof.
  intros Hw Hh Hsw Hsq Hr.
  destruct (split_image_inv _ _ _ _ _ _ Hw Hh Hsw Hsq Hr)
    as (ppm & ps & Hppm & Hg & Eppm & Eo & Eph & Epv & _ & Ei).
  exists ps. rewrite Eppm, Eo, Eph, Epv, Ei, tiles_grid. auto 10.
Qed.

(** A tile of the dict is the crop of a grid position. *)
Lemma in_tiles_grid (g : Z -> Z -> Box) (ph pv : Z) (name : string) (box : Box) :
  In (name, box)
    (map (fun p => (format_coords (fst p) (snd p), g (fst p) (snd p)))
       (list_prod (range ph) (range pv))) <->
  exists x y, (0 <= x < ph)%Z /\ (0 <= y < pv)%Z /\
              name = format_coords x y /\ box = g x y.
Proof.
  rewrite in_map_iff. split.
  - intros ([x y] & [= <- <-] & Hin). apply in_prod_iff in Hin.
    rewrite !in_range in Hin. exists x, y. tauto.
  - intros (x & y & Hx & Hy & -> & ->). exists (x, y). split; [reflexivity|].
    apply in_prod_iff. rewrite !in_range. tauto.
Qed.

(** The left edge of every column of a plan is inside the extent: the
    columns before it advance by less than [pages] divides by. *)
Lemma pages_stride_inside (size span overlap : Q) (n x : Z) :
  0 < size -> 0 < span -> 0 <= overlap ->
  pages size span overlap = Ok n ->
  (0 <= x < n)%Z ->
  inject_Z x * (span - zero_if_one n overlap) < size.
Proof.
  intros Hs Hp Ho Hn Hx.
  rewrite (pages_unfold _ _ _ Hp Ho) in Hn. injection Hn as Hn.
  assert (Hx0 : 0 <= inject_Z x).
  { change 0 with (inject_Z 0). rewrite <- Zle_Qle. lia. }
  assert (Hz : 0 <= zero_if_one n overlap /\ zero_if_one n overlap <= overlap).
  { unfold zero_if_one. destruct (n =? 1)%Z; split; lra. }
  destruct (Qceiling (size / span) =? 1)%Z.
  - assert (x = 0%Z) by lia. subst x. change (inject_Z 0) with 0. lra.
  - pose proof (Qceiling_lt (size / (span + overlap))) as Hlt.
    rewrite Hn in Hlt.
    assert (Hxn : inject_Z x <= inject_Z (n - 1)) by (rewrite <- Zle_Qle; lia).
    assert (Hd : 0 < span + overlap) by lra.
    assert (E : size == size / (span + overlap) * (span + overlap))
      by (field; lra).
    rewrite E. nra.
Qed.

(** One axis of the grid: an extent of [pixels] pixels, at [ppm] pixels per
    millimetre, cut into the [n] pages that [pages] counts on a span and an
    overlap; [lo] and [hi] are the two edges that [crop_for] gives to the
    page [x]. *)
Section Axis.

Variables pixels ppm span overlap : Q.
Variable n : Z.

Hypothesis pixels_pos : 0 < pixels.
Hypothesis ppm_pos : 0 < ppm.
Hypothesis span_pos : 0 < span.
Hypothesis overlap_nonneg : 0 <= overlap.
Hypothesis pages_n : pages (pixels / ppm) span overlap = Ok n.

Let page := span - zero_if_one n overlap.
Let lo (x : Z) := inject_Z x * (page * ppm).
Let hi (x : Z) := Qmin pixels ((inject_Z x + 1) * (page * ppm) + ppm * overlap).

Lemma zero_if_one_bounds : 0 <= zero_if_one n overlap /\ zero_if_one n overlap <= overlap.
Proof using overlap_nonneg. unfold zero_if_one. destruct (n =? 1)%Z; split; lra. Qed.

Lemma axis_lo_inside (x : Z) : (0 <= x < n)%Z -> lo x < pixels.
Proof using pixels_pos ppm_pos span_pos overlap_nonneg pages_n.
  intros Hx. unfold lo, page.
  assert (Hs : 0 < pixels / ppm) by (apply Qdiv_pos; assumption).
  pose proof (pages_stride_inside _ _ _ _ _ Hs span_pos overlap_nonneg pages_n Hx)
    as Hlt.
  apply Qlt_le_trans with (pixels / ppm * ppm).
  - rewrite Qmult_assoc. apply Qmult_lt_compat_r; assumption.
  - rewrite (pixels_scale_back pixels ppm ppm_pos). apply Qle_refl.
Qed.

(** The next page starts inside this one, at most the overlap before its
    end. *)
Lemma axis_next (x : Z) :
  (0 <= x)%Z -> (x + 1 < n)%Z ->
  lo (x + 1) <= hi x /\ hi x <= lo (x + 1) + ppm * overlap.
Proof using pixels_pos ppm_pos span_pos overlap_nonneg pages_n.
  intros Hx Hn.
  assert (E : lo (x + 1) == (inject_Z x + 1) * (page * ppm)).
  { unfold lo. rewrite inject_Z_plus. reflexivity. }
  assert (Hin : lo (x + 1) < pixels) by (apply axis_lo_inside; lia).
  unfold hi. split.
  - apply Q.min_glb; [apply Qlt_le_weak; exact Hin|]. rewrite E.
    assert (H : 0 <= ppm * overlap) by (apply Qmult_le_0_compat; lra).
    lra.
  - rewrite E. apply Q.le_min_r.
Qed.

(** The last page ends where the image ends or where the pages reach,
    whichever comes first. *)
Lemma axis_last : hi (n - 1) == Qmin pixels (ppm * reach n span overlap).
Proof.
  unfold hi, reach. fold page.
  assert (E : (inject_Z (n - 1) + 1) * (page * ppm) + ppm * overlap ==
              ppm * (inject_Z n * page + overlap)).
  { assert (En : inject_Z (n - 1) + 1 == inject_Z n).
    { change 1 with (inject_Z 1). rewrite <- inject_Z_plus.
      replace (n - 1 + 1)%Z with n by lia. reflexivity. }
    rewrite En. ring. }
  rewrite E. reflexivity.
Qed.

End Axis.

(** The tiles of [split_image] on a printable sheet, with the [pages] calls
    that count its columns and rows. *)
Lemma split_image_axes (width_pixels height_pixels : Z)
    (squares_wide squares_high : Q) (sh : Sheet) (r : Split) :
  (0 < width_pixels)%Z -> (0 < height_pixels)%Z ->
  0 < squares_wide -> 0 < squares_high -> printable sh ->
  split_image (width_pixels, height_pixels) squares_wide squares_high sh = Ok r ->
  let ppm := s_pixels_per_mm r in
  let o := s_orientation r in
  0 < ppm /\
  pages (inject_Z width_pixels / ppm) (span_horizontal o sh) (overlap_horizontal o sh)
    = Ok (s_pages_horizontal r) /\
  pages (inject_Z height_pixels / ppm) (span_vertical o sh) (overlap_vertical o sh)
    = Ok (s_pages_vertical r) /\
  (0 < span_horizontal o sh /\ 0 < span_vertical o sh /\
   0 <= overlap_horizontal o sh /\ 0 <= overlap_vertical o sh) /\
  s_images r =
    map (fun p =>
           (format_coords (fst p) (snd p),
            crop_for width_pixels height_pixels
              ((span_horizontal o sh -
                zero_if_one (s_pages_horizontal r) (overlap_horizontal o sh)) * ppm)
              ((span_vertical o sh -
                zero_if_one (s_pages_vertical r) (overlap_vertical o sh)) * ppm)
              (ppm * overlap_horizontal o sh) (ppm * overlap_vertical o sh)
              (fst p) (snd p)))
      (list_prod (range (s_pages_horizontal r)) (range (s_pages_vertical r))).
Proof.
  intros Hw Hh Hsw Hsq Hsh Hr. cbv zeta.
  destruct (split_image_tiles _ _ _ _ _ _ Hw Hh Hsw Hsq Hr)
    as (ps & Hppm & Hg & Eo & Eph & Epv & Ei).
  destruct (get_page_size_inv _ _ _ _ Hg) as (Hpw & Hpl & Ewd & Eht).
  rewrite Eo, Eph, Epv in *. rewrite Ewd, Eht in Ei.
  split; [exact Hppm|]. split; [exact Hpw|]. split; [exact Hpl|].
  split; [apply printable_span; exact Hsh | exact Ei].
Qed.

(** A finite extent fits in the pages of an axis without overlap. *)
Lemma pages_reach_no_overlap (size span overlap : Q) (n : Z) :
  0 < span -> overlap == 0 ->
  pages size span overlap = Ok n ->
  size <= reach n span overlap.
Proof.
  intros Hp Ho Hn.
  assert (Ho' : 0 <= overlap) by (rewrite Ho; apply Qle_refl).
  rewrite (pages_unfold _ _ _ Hp Ho') in Hn. injection Hn as Hn.
  unfold reach.
  assert (Hz : zero_if_one n overlap == 0).
  { destruct (zero_if_one_bounds overlap n Ho'). lra. }
  assert (Hq : size / span <= inject_Z n).
  { destruct (Qceiling (size / span) =? 1)%Z eqn:E.
    - apply Z.eqb_eq in E. rewrite <- Hn, <- E. apply Qle_ceiling.
    - rewrite <- Hn.
      assert (Ed : size / (span + overlap) == size / span)
        by (rewrite Ho, Qplus_0_r; reflexivity).
      rewrite <- Ed. apply Qle_ceiling. }
  assert (Es : size == size / span * span) by (field; lra).
  rewrite Hz, Ho. rewrite Es at 1. nra.
Qed.

(** X3. On a printable sheet the tiles of [split_image] leave no gap between
    neighbours: the tile to the east of a tile starts inside it, at most the
    horizontal overlap before its right edge, and spans the same rows; the
    tile below starts at most the vertical overlap before its lower edge, and
    spans the same columns. *)
Theorem split_image_neighbours (width_pixels height_pixels : Z)
    (squares_wide squares_high : Q) (sh : Sheet) (r : Split) (x y : Z) :
  (0 < width_pixels)%Z -> (0 < height_pixels)%Z ->
  0 < squares_wide -> 0 < squares_high -> printable sh ->
  split_image (width_pixels, height_pixels) squares_wide squares_high sh = Ok r ->
  (0 <= x < s_pages_horizontal r)%Z -> (0 <= y < s_pages_vertical r)%Z ->
  exists b,
    In (format_coords x y, b) (s_images r) /\
    ((x + 1 < s_pages_horizontal r)%Z ->
     exists b', In (format_coords (x + 1) y, b') (s_images r) /\
       left b' <= right b /\
       right b <= left b' +
                  s_pixels_per_mm r * overlap_horizontal (s_orientation r) sh /\
       upper b' == upper b /\ lower b' == lower b) /\
    ((y + 1 < s_pages_vertical r)%Z ->
     exists b', In (format_coords x (y + 1), b') (s_images r) /\
       upper b' <= lower b /\
       lower b <= upper b' +
                  s_pixels_per_mm r * overlap_vertical (s_orientation r) sh /\
       left b' == left b /\ right b' == right b).
Proof.
  intros Hw Hh Hsw Hsq Hsh Hr Hx Hy.
  destruct (split_image_axes _ _ _ _ _ _ Hw Hh Hsw Hsq Hsh Hr)
    as (Hppm & Hph & Hpv & (Hsph & Hspv & Hoh & Hov) & Ei).
  pose proof (inject_Z_pos _ Hw) as Hwq. pose proof (inject_Z_pos _ Hh) as Hhq.
  rewrite Ei. eexists. split.
  { apply in_tiles_grid. exists x, y. auto. }
  split.
  - intros Hx1. eexists. split.
    { apply in_tiles_grid. exists (x + 1)%Z, y. repeat split; auto; lia. }
    cbn [left upper right lower crop_for].
    destruct (axis_next _ _ _ _ _ Hwq Hppm Hsph Hoh Hph x) as [H1 H2]; try lia.
    split; [exact H1|]. split; [exact H2|]. split; reflexivity.
  - intros Hy1. eexists. split.
    { apply in_tiles_grid. exists x, (y + 1)%Z. repeat split; auto; lia. }
    cbn [left upper right lower crop_for].
    destruct (axis_next _ _ _ _ _ Hhq Hppm Hspv Hov Hpv y) as [H1 H2]; try lia.
    split; [exact H1|]. split; [exact H2|]. split; reflexivity.
Qed.

(** X3 at the first tile of a 2400 x 1000 pixel image of 24 x 10 squares on
    the default sheet. *)
Lemma split_image_neighbours_witness :
  exists r b b',
    split_image (2400, 1000)%Z 24 10 default_sheet = Ok r /\
    In (format_coords 0 0, b) (s_images r) /\
    In (format_coords (0 + 1) 0, b') (s_images r) /\
    left b' <= right b /\
    right b <= left b' + s_pixels_per_mm r * overlap_horizontal (s_orientation r)
                                               default_sheet.
Proof.
  let v := eval vm_compute in (split_image (2400, 1000)%Z 24 10 default_sheet) in
  match v with
  | Ok ?r =>
      assert (Hr : split_image (2400, 1000)%Z 24 10 default_sheet = Ok r)
        by (vm_compute; reflexivity);
      destruct (split_image_neighbours 2400 1000 24 10 default_sheet r 0 0)
        as (b & Hb & Heast & _);
      [reflexivity | reflexivity | reflexivity | reflexivity
      | exact default_sheet_printable | exact Hr
      | cbn; lia | cbn; lia
      | destruct Heast as (b' & Hb' & H1 & H2 & _); [cbn; lia|];
        exists r, b, b'; auto ]
  end.
Defined.

(** X4. On a printable sheet the first column of tiles starts at the left
    edge of the image and the first row at its upper edge; the last column
    ends at the right edge of the image or where the columns reach, whichever
    comes first, so it ends at the right edge exactly when the width of the
    image in millimetres is at most
    [pages_horizontal * page_width + overlap]; the last row likewise. *)
Theorem split_image_edges (width_pixels height_pixels : Z)
    (squares_wide squares_high : Q) (sh : Sheet) (r : Split) (x y : Z) :
  (0 < width_pixels)%Z -> (0 < height_pixels)%Z ->
  0 < squares_wide -> 0 < squares_high -> printable sh ->
  split_image (width_pixels, height_pixels) squares_wide squares_high sh = Ok r ->
  (0 <= x < s_pages_horizontal r)%Z -> (0 <= y < s_pages_vertical r)%Z ->
  let ppm := s_pixels_per_mm r in
  let reach_h := reach (s_pages_horizontal r)
                   (span_horizontal (s_orientation r) sh)
                   (overlap_horizontal (s_orientation r) sh) in
  let reach_v := reach (s_pages_vertical r)
                   (span_vertical (s_orientation r) sh)
                   (overlap_vertical (s_orientation r) sh) in
  exists b,
    In (format_coords x y, b) (s_images r) /\
    (x = 0%Z -> left b == 0) /\
    (y = 0%Z -> upper b == 0) /\
    (x = (s_pages_horizontal r - 1)%Z ->
     right b == Qmin (inject_Z width_pixels) (ppm * reach_h) /\
     (right b == inject_Z width_pixels <-> inject_Z width_pixels / ppm <= reach_h)) /\
    (y = (s_pages_vertical r - 1)%Z ->
     lower b == Qmin (inject_Z height_pixels) (ppm * reach_v) /\
     (lower b == inject_Z height_pixels <-> inject_Z height_pixels / ppm <= reach_v)).
Proof.
  intros Hw Hh Hsw Hsq Hsh Hr Hx Hy. cbv zeta.
  destruct (split_image_axes _ _ _ _ _ _ Hw Hh Hsw Hsq Hsh Hr)
    as (Hppm & Hph & Hpv & (Hsph & Hspv & Hoh & Hov) & Ei).
  assert (Hscale : forall pixels t : Q,
             Qmin pixels (s_pixels_per_mm r * t) == pixels <->
             pixels / s_pixels_per_mm r <= t).
  { intros pixels t. rewrite Q.min_l_iff. split; intros H.
    - apply Qle_shift_div_r; [exact Hppm|]. rewrite Qmult_comm. exact H.
    - rewrite <- (pixels_scale_back pixels _ Hppm), Qmult_comm.
      apply Qmult_le_l; assumption. }
  rewrite Ei. eexists. split.
  { apply in_tiles_grid. exists x, y. auto. }
  cbn [left upper right lower crop_for].
  split; [intros ->; apply Qmult_0_l|]. split; [intros ->; apply Qmult_0_l|].
  split; intros ->.
  - pose proof (axis_last (inject_Z width_pixels) (s_pixels_per_mm r)
                  (span_horizontal (s_orientation r) sh)
                  (overlap_horizontal (s_orientation r) sh)
                  (s_pages_horizontal r)) as E.
    cbv zeta in E. split; [exact E|]. rewrite E. apply Hscale.
  - pose proof (axis_last (inject_Z height_pixels) (s_pixels_per_mm r)
                  (span_vertical (s_orientation r) sh)
                  (overlap_vertical (s_orientation r) sh)
                  (s_pages_vertical r)) as E.
    cbv zeta in E. split; [exact E|]. rewrite E. apply Hscale.
Qed.

(** X4 at the last tile of a 2400 x 1000 pixel image of 24 x 10 squares on
    the default sheet, whose three columns reach 580 mm of its 609.6 mm. *)
Lemma split_image_edges_witness :
  exists r b,
    split_image (2400, 1000)%Z 24 10 default_sheet = Ok r /\
    In (format_coords 2 0, b) (s_images r) /\
    upper b == 0 /\
    right b == Qmin (inject_Z 2400) (s_pixels_per_mm r * 580) /\
    lower b == inject_Z 1000.
Proof.
  let v := eval vm_compute in (split_image (2400, 1000)%Z 24 10 default_sheet) in
  match v with
  | Ok ?r =>
      assert (Hr : split_image (2400, 1000)%Z 24 10 default_sheet = Ok r)
        by (vm_compute; reflexivity);
      destruct (split_image_edges 2400 1000 24 10 default_sheet r 2 0)
        as (b & Hb & _ & Hup & Hright & Hlow);
      [reflexivity | reflexivity | reflexivity | reflexivity
      | exact default_sheet_printable | exact Hr
      | cbn; lia | cbn; lia
      | exists r, b ]
  end.
  split; [exact Hr|]. split; [exact Hb|]. split; [apply Hup; reflexivity|].
  destruct (Hright eq_refl) as [Eright _]. destruct (Hlow eq_refl) as [_ Elow].
  split.
  - rewrite Eright. reflexivity.
  - apply Elow. vm_compute. discriminate.
Defined.

(** X5. With no overlap, on a printable sheet, the tiles of [split_image]
    cut the image exactly: the first column starts at the left edge, every
    column ends where the next one starts, and the last column ends at the
    right edge of the image; the rows likewise. *)
Theorem split_image_no_overlap_partition (width_pixels height_pixels : Z)
    (squares_wide squares_high : Q) (sh : Sheet) (r : Split) (x y : Z) :
  (0 < width_pixels)%Z -> (0 < height_pixels)%Z ->
  0 < squares_wide -> 0 < squares_high -> printable sh ->
  overlap_east sh == 0 -> overlap_south sh == 0 ->
  split_image (width_pixels, height_pixels) squares_wide squares_high sh = Ok r ->
  (0 <= x < s_pages_horizontal r)%Z -> (0 <= y < s_pages_vertical r)%Z ->
  exists b,
    In (format_coords x y, b) (s_images r) /\
    (x = 0%Z -> left b == 0) /\
    (y = 0%Z -> upper b == 0) /\
    ((x + 1 < s_pages_horizontal r)%Z ->
     exists b', In (format_coords (x + 1) y, b') (s_images r) /\
                right b == left b') /\
    ((y + 1 < s_pages_vertical r)%Z ->
     exists b', In (format_coords x (y + 1), b') (s_images r) /\
                lower b == upper b') /\
    (x = (s_pages_horizontal r - 1)%Z -> right b == inject_Z width_pixels) /\
    (y = (s_pages_vertical r - 1)%Z -> lower b == inject_Z height_pixels).
Proof.
  intros Hw Hh Hsw Hsq Hsh Hoe Hos Hr Hx Hy.
  destruct (split_image_axes _ _ _ _ _ _ Hw Hh Hsw Hsq Hsh Hr)
    as (Hppm & Hph & Hpv & (Hsph & Hspv & Hoh & Hov) & Ei).
  pose proof (inject_Z_pos _ Hw) as Hwq. pose proof (inject_Z_pos _ Hh) as Hhq.
  assert (Hzero : overlap_horizontal (s_orientation r) sh == 0 /\
                  overlap_vertical (s_orientation r) sh == 0)
    by (destruct (s_orientation r); cbn; auto).
  destruct Hzero as [Hzh Hzv].
  rewrite Ei. eexists. split.
  { apply in_tiles_grid. exists x, y. auto. }
  cbn [left upper right lower crop_for].
  split; [intros ->; apply Qmult_0_l|]. split; [intros ->; apply Qmult_0_l|].
  split; [|split; [|split]].
  - intros Hx1. eexists. split.
    { apply in_tiles_grid. exists (x + 1)%Z, y. repeat split; auto; lia. }
    cbn [left crop_for].
    destruct (axis_next _ _ _ _ _ Hwq Hppm Hsph Hoh Hph x) as [H1 H2]; try lia.
    cbv beta zeta in H1, H2.
    assert (E0 : s_pixels_per_mm r * overlap_horizontal (s_orientation r) sh == 0)
      by (rewrite Hzh; ring).
    apply Qle_antisym; lra.
  - intros Hy1. eexists. split.
    { apply in_tiles_grid. exists x, (y + 1)%Z. repeat split; auto; lia. }
    cbn [upper crop_for].
    destruct (axis_next _ _ _ _ _ Hhq Hppm Hspv Hov Hpv y) as [H1 H2]; try lia.
    cbv beta zeta in H1, H2.
    assert (E0 : s_pixels_per_mm r * overlap_vertical (s_orientation r) sh == 0)
      by (rewrite Hzv; ring).
    apply Qle_antisym; lra.
  - intros ->.
    rewrite (axis_last (inject_Z width_pixels) (s_pixels_per_mm r)
               (span_horizontal (s_orientation r) sh)
               (overlap_horizontal (s_orientation r) sh) (s_pages_horizontal r)).
    apply Q.min_l.
    rewrite <- (pixels_scale_back (inject_Z width_pixels) _ Hppm), Qmult_comm.
    apply Qmult_le_l; [exact Hppm|].
    apply pages_reach_no_overlap; assumption.
  - intros ->.
    rewrite (axis_last (inject_Z height_pixels) (s_pixels_per_mm r)
               (span_vertical (s_orientation r) sh)
               (overlap_vertical (s_orientation r) sh) (s_pages_vertical r)).
    apply Q.min_l.
    rewrite <- (pixels_scale_back (inject_Z height_pixels) _ Hppm), Qmult_comm.
    apply Qmult_le_l; [exact Hppm|].
    apply pages_reach_no_overlap; assumption.
Qed.

(** X5 at the last tile of a 2400 x 1000 pixel image of 24 x 10 squares on
    A4 with 5 mm borders and no overlap. *)
Lemma split_image_no_overlap_partition_witness :
  exists r b,
    split_image (2400, 1000)%Z 24 10 (mkSheet 5 5 5 5 0 0 A4) = Ok r /\
    s_pages_horizontal r = 4%Z /\
    In (format_coords 3 0, b) (s_images r) /\
    right b == inject_Z 2400 /\ lower b == inject_Z 1000.
Proof.
  let v := eval vm_compute in
             (split_image (2400, 1000)%Z 24 10 (mkSheet 5 5 5 5 0 0 A4)) in
  match v with
  | Ok ?r =>
      assert (Hr : split_image (2400, 1000)%Z 24 10 (mkSheet 5 5 5 5 0 0 A4) = Ok r)
        by (vm_compute; reflexivity);
      destruct (split_image_no_overlap_partition 2400 1000 24 10
                  (mkSheet 5 5 5 5 0 0 A4) r 3 0)
        as (b & Hb & _ & _ & _ & _ & Hright & Hlow);
      [reflexivity | reflexivity | reflexivity | reflexivity
      | unfold printable; vm_compute; repeat split; discriminate
      | reflexivity | reflexivity | exact Hr
      | cbn; lia | cbn; lia
      | exists r, b ]
  end.
  split; [exact Hr|]. split; [reflexivity|]. split; [exact Hb|].
  split; [apply Hright | apply Hlow]; reflexivity.
Defined.

(** ** More on the planner *)

Lemma Qceiling_pos (q : Q) : 0 < q -> (1 <= Qceiling q)%Z.
Proof.
  intros H. assert (H' : (0 < Qceiling q)%Z); [|lia].
  rewrite Zlt_Qlt. eapply Qlt_le_trans; [exact H | apply Qle_ceiling].
Qed.

Lemma Qceiling_le_1 (q : Q) : q <= 1 -> (Qceiling q <= 1)%Z.
Proof. intros H. change 1%Z with (Qceiling 1). apply Qceiling_resp_le. exact H. Qed.

Lemma Qdiv_pos_num (a d : Q) : 0 < d -> 0 < a / d -> 0 < a.
Proof.
  intros Hd Hq. assert (E : a == a / d * d) by (field; lra).
  rewrite E. apply Qmult_lt_0_compat; assumption.
Qed.

(** X6. A larger extent never gets fewer pages: on a positive printable
    size with an overlap that is not negative, [pages] is monotone in the
    size. *)
Theorem pages_monotone (size size' printable_size overlap : Q) (n n' : Z) :
  0 < printable_size -> 0 <= overlap -> size <= size' ->
  pages size printable_size overlap = Ok n ->
  pages size' printable_size overlap = Ok n' ->
  (n <= n')%Z.
Proof.
  intros Hp Ho Hle Hn Hn'.
  rewrite (pages_unfold _ _ _ Hp Ho) in Hn.
  rewrite (pages_unfold _ _ _ Hp Ho) in Hn'.
  injection Hn as <-. injection Hn' as <-.
  assert (Hd : 0 < printable_size + overlap) by lra.
  destruct (Qceiling (size / printable_size) =? 1)%Z eqn:E;
    destruct (Qceiling (size' / printable_size) =? 1)%Z eqn:E'.
  - lia.
  - apply Z.eqb_eq, Qceiling_one_iff in E. destruct E as [Hpos _].
    apply (Qdiv_pos_num _ _ Hp) in Hpos.
    apply Qceiling_pos, Qdiv_pos; [lra | exact Hd].
  - apply Z.eqb_eq, Qceiling_one_iff in E'. destruct E' as [_ Hle1].
    apply Qdiv_le_1_inv in Hle1; [|exact Hp].
    apply Qceiling_le_1, Qdiv_le_1; [exact Hd | lra].
  - apply Qceiling_resp_le. unfold Qdiv.
    apply Qmult_le_compat_r; [exact Hle|].
    apply Qlt_le_weak, Qinv_lt_0_compat. exact Hd.
Qed.

(** X6 at 254 mm and 508 mm on the printable width of the default sheet. *)
Lemma pages_monotone_witness :
  pages 254 200 10 = Ok 2%Z /\ pages 508 200 10 = Ok 3%Z /\ (2 <= 3)%Z.
Proof.
  assert (H254 : pages 254 200 10 = Ok 2%Z) by (vm_compute; reflexivity).
  assert (H508 : pages 508 200 10 = Ok 3%Z) by (vm_compute; reflexivity).
  split; [exact H254|]. split; [exact H508|].
  apply (pages_monotone 254 508 200 10 2 3);
    [reflexivity | discriminate | discriminate | exact H254 | exact H508].
Defined.

(** X7. For a positive extent on a positive printable size with an overlap
    that is not negative, [pages] returns at least one page, no more pages
    than the extent needs without overlap, and no fewer than
    [ceil(size / (printable_size + overlap))]. *)
Theorem pages_bounds (size printable_size overlap : Q) (n : Z) :
  0 < size -> 0 < printable_size -> 0 <= overlap ->
  pages size printable_size overlap = Ok n ->
  (1 <= n)%Z /\ (n <= Qceiling (size / printable_size))%Z /\
  (Qceiling (size / (printable_size + overlap)) <= n)%Z.
Proof.
  intros Hs Hp Ho Hn.
  rewrite (pages_unfold _ _ _ Hp Ho) in Hn. injection Hn as <-.
  assert (Hd : 0 < printable_size + overlap) by lra.
  assert (Hle : size / (printable_size + overlap) <= size / printable_size).
  { apply Qle_shift_div_r; [exact Hd|].
    assert (E : size == size / printable_size * printable_size) by (field; lra).
    rewrite E at 1.
    assert (Hq : 0 < size / printable_size) by (apply Qdiv_pos; assumption).
    nra. }
  pose proof (Qceiling_resp_le _ _ Hle) as Hc.
  pose proof (Qceiling_pos _ (Qdiv_pos _ _ Hs Hd)) as H1.
  destruct (Qceiling (size / printable_size) =? 1)%Z eqn:E.
  - apply Z.eqb_eq in E. lia.
  - lia.
Qed.

(** X7 at 508 mm on the printable width of the default sheet. *)
Lemma pages_bounds_witness :
  (1 <= 3)%Z /\ (3 <= Qceiling (508 / 200))%Z /\ (Qceiling (508 / (200 + 10)) <= 3)%Z.
Proof.
  apply (pages_bounds 508 200 10 3);
    [reflexivity | reflexivity | discriminate | vm_compute; reflexivity].
Defined.

Lemma Qeq_bool_comp (a b c : Q) : a == b -> Qeq_bool a c = Qeq_bool b c.
Proof.
  intros E. destruct (Qeq_bool b c) eqn:Eb.
  - apply Qeq_bool_eq in Eb. apply Qeq_eq_bool. rewrite E. exact Eb.
  - destruct (Qeq_bool a c) eqn:Ea; [|reflexivity].
    apply Qeq_bool_eq in Ea. rewrite E in Ea. apply Qeq_eq_bool in Ea. congruence.
Qed.

(** [pages] does not tell equal rationals apart. *)
Lemma pages_comp (size span span' overlap : Q) :
  span == span' -> pages size span overlap = pages size span' overlap.
Proof.
  intros E. unfold pages, truediv.
  rewrite (Qeq_bool_comp span span' 0 E).
  destruct (Qeq_bool span' 0); [reflexivity|]. cbn [bind].
  assert (E1 : size / span == size / span') by (rewrite E; reflexivity).
  rewrite (Qceiling_comp _ _ E1).
  destruct (Qceiling (size / span') =? 1)%Z; [reflexivity|].
  assert (E2 : span + overlap == span' + overlap) by (rewrite E; reflexivity).
  rewrite (Qeq_bool_comp _ _ 0 E2).
  destruct (Qeq_bool (span' + overlap) 0); [reflexivity|]. cbn [bind].
  assert (E3 : size / (span + overlap) == size / (span' + overlap))
    by (rewrite E2; reflexivity).
  rewrite (Qceiling_comp _ _ E3). reflexivity.
Qed.

(** The four [pages] calls behind a plan. *)
Lemma get_page_size_candidates (width_mm height_mm : Q) (sh : Sheet) (ps : PageSize) :
  get_page_size width_mm height_mm sh = Ok ps ->
  exists hp vp hl vl,
    pages width_mm (span_horizontal P sh) (overlap_horizontal P sh) = Ok hp /\
    pages height_mm (span_vertical P sh) (overlap_vertical P sh) = Ok vp /\
    pages width_mm (span_horizontal L sh) (overlap_horizontal L sh) = Ok hl /\
    pages height_mm (span_vertical L sh) (overlap_vertical L sh) = Ok vl.
Proof.
  unfold get_page_size.
  cbn [span_horizontal span_vertical overlap_horizontal overlap_vertical].
  destruct (pages width_mm (printable_width sh) (overlap_east sh))
    as [hp|]; [|discriminate].
  destruct (pages height_mm (printable_height sh) (overlap_south sh))
    as [vp|]; [|discriminate].
  destruct (pages width_mm (printable_height sh) (overlap_south sh))
    as [hl|]; [|discriminate].
  destruct (pages height_mm (printable_width sh) (overlap_east sh))
    as [vl|]; [|discriminate].
  intros _. exists hp, vp, hl, vl. auto.
Qed.

Lemma printable_rotate (sh : Sheet) :
  printable_width (rotate_sheet sh) == printable_height sh /\
  printable_height (rotate_sheet sh) = printable_width sh.
Proof.
  unfold printable_width, printable_height, rotate_sheet. cbn. split.
  - ring.
  - reflexivity.
Qed.

(** X16. Turning the sheet by a quarter does not change the number of
    pages: whenever [get_page_size] returns a plan for a sheet it returns one
    for the turned sheet, with the same product of page counts; and when the
    two plans differ in orientation they have the same grid and the same
    printable page. *)
Theorem get_page_size_rotate (width_mm height_mm : Q) (sh : Sheet) (ps : PageSize) :
  get_page_size width_mm height_mm sh = Ok ps ->
  exists ps',
    get_page_size width_mm height_mm (rotate_sheet sh) = Ok ps' /\
    (ps_pages_horizontal ps' * ps_pages_vertical ps' =
     ps_pages_horizontal ps * ps_pages_vertical ps)%Z /\
    (ps_orientation ps' <> ps_orientation ps ->
     ps_pages_horizontal ps' = ps_pages_horizontal ps /\
     ps_pages_vertical ps' = ps_pages_vertical ps /\
     ps_page_width ps' == ps_page_width ps /\
     ps_page_height ps' == ps_page_height ps).
Proof.
  intros Hg.
  destruct (get_page_size_candidates _ _ _ _ Hg) as (hp & vp & hl & vl & Hhp & Hvp & Hhl & Hvl).
  rewrite (get_page_size_pages _ _ _ _ _ _ _ Hhp Hvp Hhl Hvl) in Hg.
  destruct (printable_rotate sh) as [Ew Eh].
  assert (Hhp' : pages width_mm (span_horizontal P (rotate_sheet sh))
                   (overlap_horizontal P (rotate_sheet sh)) = Ok hl).
  { cbn [span_horizontal overlap_horizontal]. rewrite (pages_comp _ _ _ _ Ew).
    exact Hhl. }
  assert (Hvp' : pages height_mm (span_vertical P (rotate_sheet sh))
                   (overlap_vertical P (rotate_sheet sh)) = Ok vl).
  { cbn [span_vertical overlap_vertical]. rewrite Eh. exact Hvl. }
  assert (Hhl' : pages width_mm (span_horizontal L (rotate_sheet sh))
                   (overlap_horizontal L (rotate_sheet sh)) = Ok hp).
  { cbn [span_horizontal overlap_horizontal]. rewrite Eh. exact Hhp. }
  assert (Hvl' : pages height_mm (span_vertical L (rotate_sheet sh))
                   (overlap_vertical L (rotate_sheet sh)) = Ok vp).
  { cbn [span_vertical overlap_vertical]. rewrite (pages_comp _ _ _ _ Ew).
    exact Hvp. }
  eexists. split; [exact (get_page_size_pages _ _ _ _ _ _ _ Hhp' Hvp' Hhl' Hvl')|].
  rewrite Eh.
  change (overlap_south (rotate_sheet sh)) with (overlap_east sh).
  change (overlap_east (rotate_sheet sh)) with (overlap_south sh).
  injection Hg as <-.
  destruct (Z.gtb_spec (hp * vp) (hl * vl));
    destruct (Z.gtb_spec (hl * vl) (hp * vp));
    cbn [ps_pages_horizontal ps_pages_vertical ps_orientation ps_page_width
         ps_page_height];
    try lia.
  - split; [reflexivity|]. intros _.
    split; [reflexivity|]. split; [reflexivity|].
    split; [rewrite Ew|]; reflexivity.
  - split; [reflexivity|]. intros _.
    split; [reflexivity|]. split; [reflexivity|].
    split; [|rewrite Ew]; reflexivity.
  - split; [lia|]. intros Hne. congruence.
Qed.

(** X16 for a 508 x 254 mm image on the default sheet. *)
Lemma get_page_size_rotate_witness :
  exists ps',
    get_page_size 508 254 (rotate_sheet default_sheet) = Ok ps' /\
    (ps_pages_horizontal ps' * ps_pages_vertical ps' = 3 * 1)%Z.
Proof.
  destruct (get_page_size_rotate 508 254 default_sheet
              (mkPageSize P 3 1 (200 - 10) (287 - 0)))
    as (ps' & Hg & Hprod & _); [vm_compute; reflexivity|].
  exists ps'. split; [exact Hg | exact Hprod].
Defined.

(** ** Success and failure of [split_image] *)

Lemma truediv_raises (a b : Q) (e : exn) :
  truediv a b = Raise e -> e = ZeroDivisionError.
Proof. unfold truediv. destruct (Qeq_bool b 0); congruence. Qed.

Lemma pixels_per_mm_raises (width_pixels height_pixels : Z)
    (squares_wide squares_high : Q) (e : exn) :
  pixels_per_mm width_pixels height_pixels squares_wide squares_high = Raise e ->
  e = ZeroDivisionError.
Proof.
  unfold pixels_per_mm.
  destruct (truediv (inject_Z width_pixels) (squares_wide * 25.4)) as [a|e1] eqn:E1;
    [|cbn [bind]; intros [= <-]; exact (truediv_raises _ _ _ E1)].
  destruct (truediv (inject_Z height_pixels) (squares_high * 25.4)) as [b|e2] eqn:E2;
    [|cbn [bind]; intros [= <-]; exact (truediv_raises _ _ _ E2)].
  discriminate.
Qed.

(** The scale of an image without width or without height is zero. *)
Lemma pixels_per_mm_empty (width_pixels height_pixels : Z)
    (squares_wide squares_high : Q) :
  0 < squares_wide -> 0 < squares_high ->
  (0 <= width_pixels)%Z -> (0 <= height_pixels)%Z ->
  (width_pixels = 0 \/ height_pixels = 0)%Z ->
  exists ppm,
    pixels_per_mm width_pixels height_pixels squares_wide squares_high = Ok ppm /\
    ppm == 0.
Proof.
  intros Hsw Hsq Hw Hh Hz.
  rewrite (pixels_per_mm_ok _ _ _ _ Hsw Hsq). eexists. split; [reflexivity|].
  pose proof (inch_pos _ Hsw) as Hdw. pose proof (inch_pos _ Hsq) as Hdq.
  assert (Ha : 0 <= inject_Z width_pixels / (squares_wide * 25.4)).
  { apply Qle_shift_div_l; [exact Hdw|]. rewrite Qmult_0_l.
    change 0 with (inject_Z 0). rewrite <- Zle_Qle. exact Hw. }
  assert (Hb : 0 <= inject_Z height_pixels / (squares_high * 25.4)).
  { apply Qle_shift_div_l; [exact Hdq|]. rewrite Qmult_0_l.
    change 0 with (inject_Z 0). rewrite <- Zle_Qle. exact Hh. }
  destruct Hz as [-> | ->].
  - assert (E : inject_Z 0 / (squares_wide * 25.4) == 0)
      by (unfold Qdiv; apply Qmult_0_l).
    rewrite E in *. apply Q.min_l. exact Hb.
  - assert (E : inject_Z 0 / (squares_high * 25.4) == 0)
      by (unfold Qdiv; apply Qmult_0_l).
    rewrite E in *. apply Q.min_r. exact Ha.
Qed.

(** X8. [split_image] returns for every image of positive size with
    positive counts of squares on a printable sheet: the scale is positive,
    the grid has at least one column and one row, and the dict holds the
    tile ["0_0"]. *)
Theorem split_image_total (width_pixels height_pixels : Z)
    (squares_wide squares_high : Q) (sh : Sheet) :
  (0 < width_pixels)%Z -> (0 < height_pixels)%Z ->
  0 < squares_wide -> 0 < squares_high -> printable sh ->
  exists r,
    split_image (width_pixels, height_pixels) squares_wide squares_high sh = Ok r /\
    0 < s_pixels_per_mm r /\
    (1 <= s_pages_horizontal r)%Z /\ (1 <= s_pages_vertical r)%Z /\
    (exists b, In ("0_0"%string, b) (s_images r)) /\
    s_paper r = paper sh.
Proof.
  intros Hw Hh Hsw Hsq Hsh.
  assert (Hok : exists r,
    split_image (width_pixels, height_pixels) squares_wide squares_high sh = Ok r).
  { unfold split_image. rewrite (pixels_per_mm_ok _ _ _ _ Hsw Hsq). cbn [bind].
    set (ppm := Qmin _ _).
    assert (Hppm : 0 < ppm).
    { apply Qmin_pos; apply Qdiv_pos; auto using inject_Z_pos, inch_pos. }
    rewrite !(truediv_ok _ _ (Qpos_neq_0 _ Hppm)). cbn [bind].
    destruct (pages_candidates (inject_Z width_pixels / ppm)
                (inject_Z height_pixels / ppm) sh P Hsh) as [Hhp Hvp].
    destruct (pages_candidates (inject_Z width_pixels / ppm)
                (inject_Z height_pixels / ppm) sh L Hsh) as [Hhl Hvl].
    rewrite (get_page_size_pages _ _ _ _ _ _ _ Hhp Hvp Hhl Hvl). cbn [bind].
    match goal with
    | |- context [if ?b then _ else _] => destruct b
    end; eexists; reflexivity. }
  destruct Hok as [r Hr]. exists r. split; [exact Hr|].
  destruct (split_image_axes _ _ _ _ _ _ Hw Hh Hsw Hsq Hsh Hr)
    as (Hppm & Hph & Hpv & (Hsph & Hspv & Hoh & Hov) & Ei).
  destruct (split_image_inv _ _ _ _ _ _ Hw Hh Hsw Hsq Hr)
    as (_ & _ & _ & _ & _ & _ & _ & _ & Epaper & _).
  assert (Hwmm : 0 < inject_Z width_pixels / s_pixels_per_mm r)
    by (apply Qdiv_pos; auto using inject_Z_pos).
  assert (Hhmm : 0 < inject_Z height_pixels / s_pixels_per_mm r)
    by (apply Qdiv_pos; auto using inject_Z_pos).
  rewrite (pages_unfold _ _ _ Hsph Hoh) in Hph. injection Hph as Hph.
  rewrite (pages_unfold _ _ _ Hspv Hov) in Hpv. injection Hpv as Hpv.
  pose proof (count_pages_ge_1 _ _ _ Hwmm Hsph Hoh) as H1.
  pose proof (count_pages_ge_1 _ _ _ Hhmm Hspv Hov) as H2.
  unfold count_pages in H1, H2. rewrite Hph in H1. rewrite Hpv in H2.
  split; [exact Hppm|]. split; [exact H1|]. split; [exact H2|].
  split; [|exact Epaper].
  rewrite Ei. eexists. apply in_tiles_grid. exists 0%Z, 0%Z.
  split; [lia|]. split; [lia|]. split; reflexivity.
Qed.

(** X8 for a 2400 x 1000 pixel image of 24 x 10 squares on A3 with the
    default borders and overlaps. *)
Lemma split_image_total_witness :
  exists r,
    split_image (2400, 1000)%Z 24 10 (mkSheet 5 5 5 5 10 10 A3) = Ok r /\
    0 < s_pixels_per_mm r /\
    (1 <= s_pages_horizontal r)%Z /\ (1 <= s_pages_vertical r)%Z /\
    (exists b, In ("0_0"%string, b) (s_images r)) /\
    s_paper r = A3.
Proof.
  apply (split_image_total 2400 1000 24 10 (mkSheet 5 5 5 5 10 10 A3));
    try reflexivity.
  unfold printable. vm_compute. repeat split; discriminate.
Defined.

Lemma pixels_per_mm_no_squares (width_pixels height_pixels : Z)
    (squares_wide squares_high : Q) :
  squares_wide == 0 \/ squares_high == 0 ->
  pixels_per_mm width_pixels height_pixels squares_wide squares_high =
  Raise ZeroDivisionError.
Proof.
  intros Hz. unfold pixels_per_mm, truediv.
  destruct (Qeq_bool (squares_wide * 25.4) 0) eqn:E1; [reflexivity|].
  cbn [bind].
  destruct (Qeq_bool (squares_high * 25.4) 0) eqn:E2; [reflexivity|].
  exfalso. destruct Hz as [Hz|Hz].
  - assert (E : squares_wide * 25.4 == 0) by (rewrite Hz; ring).
    apply Qeq_eq_bool in E. congruence.
  - assert (E : squares_high * 25.4 == 0) by (rewrite Hz; ring).
    apply Qeq_eq_bool in E. congruence.
Qed.

(** X9. [split_image] raises [ZeroDivisionError] before it plans or crops
    anything when a count of squares is zero, and when the image has no
    width or no height, for then the scale is zero and the width in pixels is
    divided by it; the sheet plays no part. *)
Theorem split_image_failure (width_pixels height_pixels : Z)
    (squares_wide squares_high : Q) (sh : Sheet) :
  (squares_wide == 0 \/ squares_high == 0 ->
   split_image (width_pixels, height_pixels) squares_wide squares_high sh =
   Raise ZeroDivisionError) /\
  (0 < squares_wide -> 0 < squares_high ->
   (0 <= width_pixels)%Z -> (0 <= height_pixels)%Z ->
   (width_pixels = 0 \/ height_pixels = 0)%Z ->
   split_image (width_pixels, height_pixels) squares_wide squares_high sh =
   Raise ZeroDivisionError).
Proof.
  split.
  - intros Hz. unfold split_image.
    rewrite (pixels_per_mm_no_squares _ _ _ _ Hz). reflexivity.
  - intros Hsw Hsq Hw Hh Hz. unfold split_image.
    destruct (pixels_per_mm_empty _ _ _ _ Hsw Hsq Hw Hh Hz) as (ppm & -> & E).
    cbn [bind]. rewrite (truediv_zero _ _ E). reflexivity.
Qed.

(** X9 for an image of 0 x 1000 pixels and for a count of 0 squares. *)
Lemma split_image_failure_witness :
  split_image (2400, 1000)%Z 0 10 default_sheet = Raise ZeroDivisionError /\
  split_image (0, 1000)%Z 24 10 default_sheet = Raise ZeroDivisionError.
Proof.
  destruct (split_image_failure 2400 1000 0 10 default_sheet) as (Hsq & _).
  destruct (split_image_failure 0 1000 24 10 default_sheet) as (_ & Hempty).
  split.
  - apply Hsq. left. reflexivity.
  - apply Hempty; try reflexivity; try discriminate. left. reflexivity.
Defined.

(** ** [process_image_with_border] and [make_single_page_pdf] *)

(** X10. For an image of positive size and positive counts of squares
    [process_image_with_border] returns a page on which
    [make_single_page_pdf] places the image with exactly the four borders
    round it, and the image keeps its proportions: its width and height in
    millimetres are in the ratio of its width and height in pixels. *)
Theorem process_image_with_border_page (width_pixels height_pixels : Z)
    (squares_wide squares_high bn be bw bs : Q) :
  (0 < width_pixels)%Z -> (0 < height_pixels)%Z ->
  0 < squares_wide -> 0 < squares_high ->
  exists spec x y w h,
    process_image_with_border (width_pixels, height_pixels) squares_wide squares_high
      bn be bw bs = Ok spec /\
    make_single_page_pdf spec =
      ((page_width spec, page_height spec),
       [pdf_add_page; pdf_image "image.png" x y w h]) /\
    x = bw /\ y = bn /\
    x + w + be == page_width spec /\ y + h + bs == page_height spec /\
    0 < w /\ 0 < h /\
    w * inject_Z height_pixels == h * inject_Z width_pixels.
Proof.
  intros Hw Hh Hsw Hsq.
  pose proof (inject_Z_pos _ Hw) as Hwq. pose proof (inject_Z_pos _ Hh) as Hhq.
  unfold process_image_with_border.
  rewrite (pixels_per_mm_ok _ _ _ _ Hsw Hsq). cbn [bind].
  set (ppm := Qmin _ _).
  assert (Hppm : 0 < ppm).
  { apply Qmin_pos; apply Qdiv_pos; auto using inch_pos. }
  rewrite !(truediv_ok _ _ (Qpos_neq_0 _ Hppm)). cbn [bind].
  do 5 eexists. split; [reflexivity|].
  unfold make_single_page_pdf.
  cbn [page_width page_height margin_left margin_top image_width image_height].
  split; [reflexivity|]. split; [reflexivity|]. split; [reflexivity|].
  split; [ring|]. split; [ring|].
  split; [apply Qdiv_pos; assumption|]. split; [apply Qdiv_pos; assumption|].
  field. apply Qpos_neq_0. exact Hppm.
Qed.

(** X10 for 2000 x 1000 pixels, 20 x 10 squares and 5 mm borders. *)
Lemma process_image_with_border_page_witness :
  exists spec x y w h,
    process_image_with_border (2000, 1000)%Z 20 10 5 5 5 5 = Ok spec /\
    make_single_page_pdf spec =
      ((page_width spec, page_height spec),
       [pdf_add_page; pdf_image "image.png" x y w h]) /\
    x = 5 /\ y = 5 /\
    x + w + 5 == page_width spec /\ y + h + 5 == page_height spec /\
    0 < w /\ 0 < h /\
    w * inject_Z 1000 == h * inject_Z 2000.
Proof.
  apply (process_image_with_border_page 2000 1000 20 10 5 5 5 5); reflexivity.
Defined.

(** X11. [process_image_with_border] raises nothing but
    [ZeroDivisionError]; it raises it when a count of squares is zero, and
    when the image has no width or no height. *)
Theorem process_image_with_border_failure (width_pixels height_pixels : Z)
    (squares_wide squares_high bn be bw bs : Q) :
  (forall e,
     process_image_with_border (width_pixels, height_pixels) squares_wide squares_high
       bn be bw bs = Raise e ->
     e = ZeroDivisionError) /\
  (squares_wide == 0 \/ squares_high == 0 ->
   process_image_with_border (width_pixels, height_pixels) squares_wide squares_high
     bn be bw bs = Raise ZeroDivisionError) /\
  (0 < squares_wide -> 0 < squares_high ->
   (0 <= width_pixels)%Z -> (0 <= height_pixels)%Z ->
   (width_pixels = 0 \/ height_pixels = 0)%Z ->
   process_image_with_border (width_pixels, height_pixels) squares_wide squares_high
     bn be bw bs = Raise ZeroDivisionError).
Proof.
  split; [|split].
  - intros e. unfold process_image_with_border.
    destruct (pixels_per_mm width_pixels height_pixels squares_wide squares_high)
      as [ppm|e0] eqn:E0;
      [|cbn [bind]; intros [= <-]; exact (pixels_per_mm_raises _ _ _ _ _ E0)].
    cbn [bind].
    destruct (truediv (inject_Z width_pixels) ppm) as [w|e1] eqn:E1;
      [|cbn [bind]; intros [= <-]; exact (truediv_raises _ _ _ E1)].
    destruct (truediv (inject_Z height_pixels) ppm) as [h|e2] eqn:E2;
      [|cbn [bind]; intros [= <-]; exact (truediv_raises _ _ _ E2)].
    discriminate.
  - intros Hz. unfold process_image_with_border.
    rewrite (pixels_per_mm_no_squares _ _ _ _ Hz). reflexivity.
  - intros Hsw Hsq Hw Hh Hz. unfold process_image_with_border.
    destruct (pixels_per_mm_empty _ _ _ _ Hsw Hsq Hw Hh Hz) as (ppm & -> & E).
    cbn [bind]. rewrite (truediv_zero _ _ E). reflexivity.
Qed.

(** X11 for an image of 2000 x 0 pixels and for a count of 0 squares. *)
Lemma process_image_with_border_failure_witness :
  process_image_with_border (2000, 1000)%Z 20 0 5 5 5 5 = Raise ZeroDivisionError /\
  process_image_with_border (2000, 0)%Z 20 10 5 5 5 5 = Raise ZeroDivisionError.
Proof.
  destruct (process_image_with_border_failure 2000 1000 20 0 5 5 5 5)
    as (_ & Hsq & _).
  destruct (process_image_with_border_failure 2000 0 20 10 5 5 5 5)
    as (_ & _ & Hempty).
  split.
  - apply Hsq. right. reflexivity.
  - apply Hempty; try reflexivity; try discriminate. right. reflexivity.
Defined.

(** ** The document of [make_pdf] *)




Lemma tick_is_line (page_width page_height x y size gap : Q) (n e s w dash : bool) :
  Forall is_line (tick page_width page_height x y size gap n e s w dash).
Proof.
  unfold tick.
  destruct n, e, s, w, dash; cbn [app]; repeat constructor;
    match goal with |- is_line (if ?b then _ else _) => destruct b; exact I end.
Qed.





(** ** The names that [make_pdf] reads *)

Lemma string_app_assoc (a b c : string) : ((a ++ b) ++ c = a ++ (b ++ c))%string.
Proof. induction a as [|ch a IH]; cbn; [reflexivity | rewrite IH; reflexivity]. Qed.

Lemma match_coords_nondigit (coords : string) :
  starts_nondigit coords -> match_coords coords = None.
Proof.
  intros H. unfold match_coords. rewrite (span_digits_nondigit _ H). reflexivity.
Qed.

Lemma match_coords_suffix (x y : Z) (suffix : string) :
  (0 <= x)%Z -> (0 <= y)%Z -> starts_nondigit suffix ->
  match_coords (format_coords x y ++ suffix) = Some (str_int x, str_int y).
Proof.
  intros Hx Hy Hs.
  destruct (str_int_nonneg x Hx) as (ux & Hux & Ex & _).
  destruct (str_int_nonneg y Hy) as (uy & Huy & Ey & _).
  unfold format_coords, match_coords. rewrite Ex, Ey.
  rewrite !string_app_assoc. rewrite span_digits_uint by reflexivity.
  destruct (string_of_uint_nonempty ux Hux) as (c1 & s1 & E1).
  destruct (string_of_uint_nonempty uy Huy) as (c2 & s2 & E2).
  rewrite E1. cbn [String.append].
  rewrite (span_digits_uint uy suffix Hs), E2. reflexivity.
Qed.

(** The page of a name that matches as the grid position [x], [y]. *)
Lemma make_pdf_page_matched (image_size : Box -> Z * Z) (images : Split)
    (coords : string) (x y : Z) (image : Box) :
  ~ s_pixels_per_mm images == 0 ->
  (0 <= x)%Z -> (0 <= y)%Z ->
  match_coords coords = Some (str_int x, str_int y) ->
  make_pdf_page image_size images coords image =
  let '(border_north, border_east, border_south, border_west) := s_border images in
  let '(page_width, page_height) := sheet_size images in
  let im_width_mm := inject_Z (fst (image_size image)) / s_pixels_per_mm images in
  let im_height_mm := inject_Z (snd (image_size image)) / s_pixels_per_mm images in
  Ok ([pdf_add_page] ++
      (corner_marks page_width page_height border_north border_west
         im_width_mm im_height_mm ++
       (if negb (x =? s_pages_horizontal images - 1)%Z
        then east_edge_marks page_width page_height border_north border_east
               im_height_mm
        else []) ++
       (if negb (y =? s_pages_vertical images - 1)%Z
        then south_edge_marks page_width page_height border_south border_west
               im_width_mm
        else [])) ++
      [pdf_image coords border_west border_north im_width_mm im_height_mm]).
Proof.
  intros Hppm Hx Hy Hm. unfold make_pdf_page, sheet_size.
  rewrite Hm. cbn [bind fst snd].
  rewrite (int_of_digits_str_int x Hx), (int_of_digits_str_int y Hy).
  destruct (s_border images) as [[[bn be] bs] bw].
  destruct (image_size image) as [im_width im_height]. cbn [fst snd].
  rewrite !(truediv_ok _ _ Hppm). cbn [bind].
  unfold corner_marks, east_edge_marks, south_edge_marks.
  destruct (s_orientation images); rewrite <- !app_assoc; reflexivity.
Qed.

Lemma starts_plain_nondigit (s : string) : starts_plain s -> starts_nondigit s.
Proof. destruct s as [|c s]; cbn; tauto. Qed.

(** X13. The names that [make_pdf] accepts: a name that is empty or starts
    with an ASCII character that is not a digit raises [AttributeError];
    nothing anchors the end of the pattern, so a grid name followed by any
    text that starts with such a character is read as that grid position and
    its page gets the same marks, with the image under the longer name. *)
Theorem make_pdf_page_names (image_size : Box -> Z * Z) (images : Split)
    (coords suffix : string) (x y : Z) (image : Box) :
  (starts_plain coords ->
   make_pdf_page image_size images coords image = Raise AttributeError) /\
  (~ s_pixels_per_mm images == 0 -> (0 <= x)%Z -> (0 <= y)%Z ->
   starts_plain suffix ->
   exists marks px py w h,
     Forall is_line marks /\
     make_pdf_page image_size images (format_coords x y) image =
       Ok ([pdf_add_page] ++ marks ++ [pdf_image (format_coords x y) px py w h]) /\
     make_pdf_page image_size images (format_coords x y ++ suffix) image =
       Ok ([pdf_add_page] ++ marks ++
           [pdf_image (format_coords x y ++ suffix) px py w h])).
Proof.
  split.
  - intros H. apply starts_plain_nondigit in H. unfold make_pdf_page.
    destruct (s_border images) as [[[bn be] bs] bw].
    rewrite (match_coords_nondigit _ H).
    destruct (s_orientation images); reflexivity.
  - intros Hppm Hx Hy Hs. apply starts_plain_nondigit in Hs.
    rewrite (make_pdf_page_matched image_size images _ x y image Hppm Hx Hy
               (match_coords_format x y Hx Hy)).
    rewrite (make_pdf_page_matched image_size images _ x y image Hppm Hx Hy
               (match_coords_suffix x y suffix Hx Hy Hs)).
    destruct (s_border images) as [[[bn be] bs] bw].
    destruct (sheet_size images) as [pw ph]. cbv zeta.
    do 5 eexists. split; [|split; reflexivity].
    rewrite !Forall_app. split; [|split].
    + unfold corner_marks. rewrite !Forall_app.
      split; [|split; [|split]]; apply tick_is_line.
    + destruct (negb (x =? s_pages_horizontal images - 1)%Z); [|constructor].
      unfold east_edge_marks. rewrite Forall_app. split; apply tick_is_line.
    + destruct (negb (y =? s_pages_vertical images - 1)%Z); [|constructor].
      unfold south_edge_marks. rewrite Forall_app. split; apply tick_is_line.
Qed.

(** X13 for the names ["tile"] and ["1_0.png"]. *)
Lemma make_pdf_page_names_witness :
  make_pdf_page (fun _ => (787, 1000)%Z)
    (mkSplit (500 / 127) [] P (5, 15, 15, 5) 3 1 A4) "tile" (mkBox 0 0 787 1000)
    = Raise AttributeError /\
  exists marks px py w h,
    Forall is_line marks /\
    make_pdf_page (fun _ => (787, 1000)%Z)
      (mkSplit (500 / 127) [] P (5, 15, 15, 5) 3 1 A4)
      (format_coords 1 0 ++ ".png") (mkBox 0 0 787 1000) =
    Ok ([pdf_add_page] ++ marks ++
        [pdf_image (format_coords 1 0 ++ ".png") px py w h]).
Proof.
  destruct (make_pdf_page_names (fun _ => (787, 1000)%Z)
              (mkSplit (500 / 127) [] P (5, 15, 15, 5) 3 1 A4)
              "tile" ".png" 1 0 (mkBox 0 0 787 1000)) as [Hbad Hgood].
  split; [apply Hbad; split; [reflexivity | cbn; lia]|].
  destruct Hgood as (marks & px & py & w & h & Hl & _ & Hp);
    [discriminate | lia | lia | split; [reflexivity | cbn; lia] |].
  exists marks, px, py, w, h. split; [exact Hl | exact Hp].
Defined.

(** The borders that [split_image] hands to [make_pdf]. *)
Lemma split_image_border (width_pixels height_pixels : Z)
    (squares_wide squares_high : Q) (sh : Sheet) (r : Split) :
  split_image (width_pixels, height_pixels) squares_wide squares_high sh = Ok r ->
  s_paper r = paper sh /\
  s_border r =
    match s_orientation r with
    | P => (border_north sh, border_east sh + overlap_east sh,
            border_south sh + overlap_south sh, border_west sh)
    | L => (border_east sh, border_south sh + overlap_east sh,
            border_west sh + overlap_south sh, border_north sh)
    end.
Proof.
  unfold split_image.
  destruct (pixels_per_mm width_pixels height_pixels squares_wide squares_high)
    as [ppm|]; [|discriminate]. cbn [bind].
  destruct (truediv (inject_Z width_pixels) ppm) as [w|]; [|discriminate].
  destruct (truediv (inject_Z height_pixels) ppm) as [h|]; [|discriminate].
  cbn [bind]. destruct (get_page_size w h sh) as [ps|]; [|discriminate].
  cbn [bind]. destruct (ps_orientation ps) eqn:O; intros [= <-];
    cbn [s_border s_orientation s_paper]; split; reflexivity.
Qed.

(** X14. The dashed cut lines of [make_pdf] and the crops of [split_image]
    agree in portrait, and in landscape when the two overlaps are equal: the
    east cut line is drawn as far from the left edge of the tile image as
    the next column starts after this one, and the south cut line as far
    from its upper edge as the next row starts. *)
Theorem split_image_cut_lines (width_pixels height_pixels : Z)
    (squares_wide squares_high : Q) (sh : Sheet) (r : Split) (x y : Z) :
  (0 < width_pixels)%Z -> (0 < height_pixels)%Z ->
  0 < squares_wide -> 0 < squares_high ->
  split_image (width_pixels, height_pixels) squares_wide squares_high sh = Ok r ->
  s_orientation r = P \/ overlap_east sh == overlap_south sh ->
  (0 <= x < s_pages_horizontal r)%Z -> (0 <= y < s_pages_vertical r)%Z ->
  let '(border_north, border_east, border_south, border_west) := s_border r in
  let '(page_width, page_height) := sheet_size r in
  exists b,
    In (format_coords x y, b) (s_images r) /\
    ((x + 1 < s_pages_horizontal r)%Z ->
     exists b', In (format_coords (x + 1) y, b') (s_images r) /\
       (page_width - border_east - border_west) * s_pixels_per_mm r
       == left b' - left b) /\
    ((y + 1 < s_pages_vertical r)%Z ->
     exists b', In (format_coords x (y + 1), b') (s_images r) /\
       (page_height - border_south - border_north) * s_pixels_per_mm r
       == upper b' - upper b).
Proof.
  intros Hw Hh Hsw Hsq Hr Ho Hx Hy.
  destruct (split_image_tiles _ _ _ _ _ _ Hw Hh Hsw Hsq Hr)
    as (ps & Hppm & Hg & Eo & Eph & Epv & Ei).
  destruct (get_page_size_inv _ _ _ _ Hg) as (_ & _ & Ewd & Eht).
  rewrite Eo, Eph in Ewd. rewrite Eo, Epv in Eht.
  destruct (split_image_border _ _ _ _ _ _ Hr) as [Epaper Eb].
  rewrite Eb, Ei. unfold sheet_size. rewrite Epaper.
  assert (Hov : s_orientation r = L -> overlap_east sh == overlap_south sh).
  { intros HL. destruct Ho as [HP|E]; [congruence | exact E]. }
  destruct (s_orientation r) eqn:O.
  - eexists. split; [apply in_tiles_grid; exists x, y; auto|]. split.
    + intros Hx1. eexists.
      split; [apply in_tiles_grid; exists (x + 1)%Z, y; repeat split; auto; lia|].
      cbn [left crop_for]. rewrite Ewd, zero_if_one_other by lia.
      rewrite inject_Z_plus. change (inject_Z 1) with 1.
      cbn [span_horizontal overlap_horizontal]. unfold printable_width. ring.
    + intros Hy1. eexists.
      split; [apply in_tiles_grid; exists x, (y + 1)%Z; repeat split; auto; lia|].
      cbn [upper crop_for]. rewrite Eht, zero_if_one_other by lia.
      rewrite inject_Z_plus. change (inject_Z 1) with 1.
      cbn [span_vertical overlap_vertical]. unfold printable_height. ring.
  - specialize (Hov eq_refl).
    eexists. split; [apply in_tiles_grid; exists x, y; auto|]. split.
    + intros Hx1. eexists.
      split; [apply in_tiles_grid; exists (x + 1)%Z, y; repeat split; auto; lia|].
      cbn [left crop_for]. rewrite Ewd, zero_if_one_other by lia.
      rewrite inject_Z_plus. change (inject_Z 1) with 1.
      cbn [span_horizontal overlap_horizontal]. unfold printable_height.
      rewrite Hov. ring.
    + intros Hy1. eexists.
      split; [apply in_tiles_grid; exists x, (y + 1)%Z; repeat split; auto; lia|].
      cbn [upper crop_for]. rewrite Eht, zero_if_one_other by lia.
      rewrite inject_Z_plus. change (inject_Z 1) with 1.
      cbn [span_vertical overlap_vertical]. unfold printable_width.
      rewrite Hov. ring.
Qed.

(** X14 at the first tile of a 2400 x 1000 pixel image of 24 x 10 squares on
    the default sheet: the cut line is 190 mm from the left edge of the tile
    image. *)
Lemma split_image_cut_lines_witness :
  exists r b b',
    split_image (2400, 1000)%Z 24 10 default_sheet = Ok r /\
    In (format_coords 0 0, b) (s_images r) /\
    In (format_coords (0 + 1) 0, b') (s_images r) /\
    (210 - 15 - 5) * s_pixels_per_mm r == left b' - left b.
Proof.
  let v := eval vm_compute in (split_image (2400, 1000)%Z 24 10 default_sheet) in
  match v with
  | Ok ?r =>
      assert (Hr : split_image (2400, 1000)%Z 24 10 default_sheet = Ok r)
        by (vm_compute; reflexivity);
      pose proof (split_image_cut_lines 2400 1000 24 10 default_sheet r 0 0
                    eq_refl eq_refl eq_refl eq_refl Hr (or_introl eq_refl)) as Hcut;
      cbv [s_border sheet_size s_orientation s_paper s_pages_horizontal
           s_pages_vertical] in Hcut;
      destruct Hcut as (b & Hb & Heast & _); [lia | lia |];
      destruct Heast as (b' & Hb' & Heq); [lia|];
      exists r, b, b'
  end.
  split; [exact Hr|]. split; [exact Hb|]. split; [exact Hb'|]. exact Heq.
Defined.

(** ** The upscaler *)

Lemma only_file_is_file (is_file : string -> bool) (p : option string) (f : string) :
  only_file is_file p = Some f -> is_file f = true.
Proof.
  destruct p as [g|]; cbn; [|discriminate].
  destruct (is_file g) eqn:E; [|discriminate]. intros [= <-]. exact E.
Qed.

(** X17. [run_waifu2x] never runs a tool that is not there: whenever it
    runs a command, the command starts with a path at which a file exists,
    ends with [-i source -o dest] in the temporary directory, and runs in the
    directory of an existing file; in the Torch form the script is an
    existing file as well.  With no macOS tool set, and neither scaling nor
    noise reduction asked for, it returns the image as it is. *)
Theorem run_waifu2x_runs_files (is_file : string -> bool)
    (TORCH_PATH WAIFU2X_LUA_PATH WAIFU2X_MACOS_PATH : option string)
    (dir : string) (waifu2x_lua_path torch_path waifu2x_macos_path : option string)
    (scale : bool) (noise : option Z) (force_cudnn : bool) :
  (forall command cwd_of,
     run_waifu2x is_file TORCH_PATH WAIFU2X_LUA_PATH WAIFU2X_MACOS_PATH dir
       waifu2x_lua_path torch_path waifu2x_macos_path scale noise force_cudnn
     = run command cwd_of ->
     is_file cwd_of = true /\
     exists tool args,
       command = tool :: args ++
                 ["-i"; dir ++ "/source.png"; "-o"; dir ++ "/dest.png"]%string /\
       is_file tool = true /\
       (or_default waifu2x_macos_path WAIFU2X_MACOS_PATH = None ->
        exists script args', args = script :: "-m"%string :: args' /\
                             is_file script = true)) /\
  (or_default waifu2x_macos_path WAIFU2X_MACOS_PATH = None ->
   scale = false -> noise = None ->
   run_waifu2x is_file TORCH_PATH WAIFU2X_LUA_PATH WAIFU2X_MACOS_PATH dir
     waifu2x_lua_path torch_path waifu2x_macos_path scale noise force_cudnn
   = unchanged).
Proof.
  unfold run_waifu2x. split.
  - intros command cwd_of.
    destruct (or_default waifu2x_macos_path WAIFU2X_MACOS_PATH) as [macos|].
    + destruct (is_file macos) eqn:Em; cbn [negb]; [|discriminate].
      intros [= <- <-]. split.
      * destruct (only_file is_file (or_default waifu2x_lua_path WAIFU2X_LUA_PATH))
          as [lua|] eqn:El; [exact (only_file_is_file _ _ _ El) | exact Em].
      * exists macos.
        exists (app (if scale then ["-s"; "2"]%string else ["-s"; "1"]%string)
                  ["-n"%string;
                   str_int match noise with None => 0%Z | Some level => level end]).
        split; [|split; [exact Em | discriminate]].
        rewrite <- app_assoc. reflexivity.
    + destruct (only_file is_file (or_default waifu2x_lua_path WAIFU2X_LUA_PATH))
        as [lua|] eqn:El; [|discriminate].
      destruct (only_file is_file (or_default torch_path TORCH_PATH))
        as [torch|] eqn:Et; [|discriminate].
      destruct (negb scale && _); [discriminate|].
      intros [= <- <-].
      pose proof (only_file_is_file _ _ _ El) as Hl.
      pose proof (only_file_is_file _ _ _ Et) as Ht.
      split; [exact Hl|].
      exists torch.
      exists (lua :: "-m"%string ::
              app [if scale
                   then match noise with
                        | None => "scale"%string
                        | Some _ => "noise_scale"%string
                        end
                   else "noise"%string]
                (app match noise with
                     | Some level => ["-noise_level"%string; str_int level]
                     | None => []
                     end
                   (if force_cudnn then ["-force_cudnn"; "1"]%string else []))).
      split; [|split; [exact Ht|]].
      * cbn [app]. rewrite <- !app_assoc. reflexivity.
      * intros _. eexists. eexists. split; [reflexivity | exact Hl].
  - intros -> -> ->.
    destruct (only_file is_file (or_default waifu2x_lua_path WAIFU2X_LUA_PATH));
      [|reflexivity].
    destruct (only_file is_file (or_default torch_path TORCH_PATH)); reflexivity.
Qed.

(** X17 with Torch and the script in [/opt] and no macOS tool. *)
Lemma run_waifu2x_runs_files_witness :
  (fun p => String.eqb p "/opt/th" || String.eqb p "/opt/waifu2x.lua")%string
    "/opt/waifu2x.lua"%string = true /\
  run_waifu2x
    (fun p => String.eqb p "/opt/th" || String.eqb p "/opt/waifu2x.lua")%string
    None None None "/tmp/d" (Some "/opt/waifu2x.lua"%string) (Some "/opt/th"%string)
    None false None false = unchanged.
Proof.
  destruct (run_waifu2x_runs_files
              (fun p => String.eqb p "/opt/th" || String.eqb p "/opt/waifu2x.lua")%string
              None None None "/tmp/d" (Some "/opt/waifu2x.lua"%string)
              (Some "/opt/th"%string) None true (Some 0%Z) false) as [Hrun _].
  destruct (run_waifu2x_runs_files
              (fun p => String.eqb p "/opt/th" || String.eqb p "/opt/waifu2x.lua")%string
              None None None "/tmp/d" (Some "/opt/waifu2x.lua"%string)
              (Some "/opt/th"%string) None false None false) as [_ Hnothing].
  split.
  - destruct (Hrun _ _ eq_refl) as [Hcwd _]. exact Hcwd.
  - apply Hnothing; reflexivity.
Defined.

(** ** The printable page of a plan *)

(** X18. For an image of positive size on a printable sheet whose overlaps
    are smaller than the printable width and height, [get_page_size] returns
    a plan with at least one column and one row and a printable page of
    positive width and height, no larger than the printable spans of its
    orientation. *)
Theorem get_page_size_plan_positive (width_mm height_mm : Q) (sh : Sheet) :
  0 < width_mm -> 0 < height_mm -> printable sh ->
  overlap_east sh < printable_width sh ->
  overlap_south sh < printable_height sh ->
  exists ps,
    get_page_size width_mm height_mm sh = Ok ps /\
    (1 <= ps_pages_horizontal ps)%Z /\ (1 <= ps_pages_vertical ps)%Z /\
    (0 < ps_page_width ps /\
     ps_page_width ps <= span_horizontal (ps_orientation ps) sh) /\
    (0 < ps_page_height ps /\
     ps_page_height ps <= span_vertical (ps_orientation ps) sh).
Proof.
  intros Hw Hh Hsh Hfe Hfs.
  destruct (pages_candidates width_mm height_mm sh P Hsh) as [Hhp Hvp].
  destruct (pages_candidates width_mm height_mm sh L Hsh) as [Hhl Hvl].
  pose proof (get_page_size_pages _ _ _ _ _ _ _ Hhp Hvp Hhl Hvl) as Hg.
  destruct (printable_span P sh Hsh) as (HsP & HvP & HoP & HovP).
  destruct (printable_span L sh Hsh) as (HsL & HvL & HoL & HovL).
  pose proof (count_pages_ge_1 _ _ _ Hw HsP HoP) as H1.
  pose proof (count_pages_ge_1 _ _ _ Hh HvP HovP) as H2.
  pose proof (count_pages_ge_1 _ _ _ Hw HsL HoL) as H3.
  pose proof (count_pages_ge_1 _ _ _ Hh HvL HovL) as H4.
  cbn [span_horizontal span_vertical overlap_horizontal overlap_vertical] in *.
  destruct Hsh as (_ & _ & Hoe & Hos).
  eexists. split; [exact Hg|].
  match goal with |- context [if ?b then _ else _] => destruct b end;
    cbn [ps_pages_horizontal ps_pages_vertical ps_orientation ps_page_width
         ps_page_height span_horizontal span_vertical];
    (split; [assumption|]); (split; [assumption|]);
    split;
    match goal with
    | |- context [zero_if_one ?n ?o] =>
        destruct (zero_if_one_bounds o n ltac:(assumption)); split; lra
    end.
Qed.

(** X18 for a 508 x 254 mm image on the default sheet. *)
Lemma get_page_size_plan_positive_witness :
  exists ps,
    get_page_size 508 254 default_sheet = Ok ps /\
    (1 <= ps_pages_horizontal ps)%Z /\ (1 <= ps_pages_vertical ps)%Z /\
    (0 < ps_page_width ps /\
     ps_page_width ps <= span_horizontal (ps_orientation ps) default_sheet) /\
    (0 < ps_page_height ps /\
     ps_page_height ps <= span_vertical (ps_orientation ps) default_sheet).
Proof.
  apply (get_page_size_plan_positive 508 254 default_sheet);
    [reflexivity | reflexivity | exact default_sheet_printable
    | reflexivity | reflexivity].
Defined.

(** ** The name of a mask *)

Section MaskNameFacts.

Local Open Scope string_scope.

Lemma string_length_app (a b : string) :
  String.length (a ++ b) = (String.length a + String.length b)%nat.
Proof. induction a as [|c a IH]; cbn; [reflexivity | rewrite IH; reflexivity]. Qed.

Lemma substring_prefix (a b : string) : substring 0 (String.length a) (a ++ b) = a.
Proof.
  induction a as [|c a IH]; cbn.
  - destruct b; reflexivity.
  - rewrite IH. reflexivity.
Qed.

Lemma find_skip (c ch : ascii) (s : string) (i : Z) :
  Ascii.eqb ch c = false -> find c s = i -> (0 <= i)%Z ->
  find c (String ch s) = (i + 1)%Z.
Proof.
  intros E <- H. cbn. rewrite E.
  destruct (Z.ltb_spec (find c s) 0); [lia | reflexivity].
Qed.

Lemma is_digit_not_dot (c : ascii) : is_digit c = true -> Ascii.eqb c "." = false.
Proof.
  intros H. destruct (Ascii.eqb_spec c "."); [subst; discriminate | reflexivity].
Qed.

(** The first dot after a run of digits is right behind it. *)
Lemma find_dot_digits (ds rest : string) :
  all_digits ds = true ->
  find "." (ds ++ String "." rest) = Z.of_nat (String.length ds).
Proof.
  induction ds as [|c ds IH]; intros H; [reflexivity|].
  cbn [all_digits] in H. apply andb_true_iff in H. destruct H as [Hc Hds].
  cbn [String.append String.length].
  rewrite (find_skip _ _ _ _ (is_digit_not_dot _ Hc) (IH Hds)); lia.
Qed.

(** The number of a name [image-<digits>.<rest>] is read from the digits. *)
Lemma slice_image_number (ds rest : string) :
  all_digits ds = true ->
  slice ("image-" ++ ds ++ String "." rest)
    (find "-" ("image-" ++ ds ++ String "." rest) + 1)
    (find "." ("image-" ++ ds ++ String "." rest)) = ds.
Proof.
  intros H.
  assert (Ehyphen : find "-" ("image-" ++ ds ++ String "." rest) = 5%Z)
    by reflexivity.
  assert (Edot : find "." ("image-" ++ ds ++ String "." rest)
                 = (Z.of_nat (String.length ds) + 1 + 1 + 1 + 1 + 1 + 1)%Z).
  { cbn [String.append].
    repeat (apply find_skip; [reflexivity| |lia]).
    apply find_dot_digits. exact H. }
  rewrite Ehyphen, Edot. unfold slice, clamp_index.
  rewrite !string_length_app. cbn [String.length].
  set (l := String.length ds).
  replace (5 + 1 <? 0)%Z with false by (symmetry; apply Z.ltb_ge; lia).
  replace (Z.of_nat l + 1 + 1 + 1 + 1 + 1 + 1 <? 0)%Z with false
    by (symmetry; apply Z.ltb_ge; lia).
  replace (Z.to_nat (Z.min (5 + 1) (Z.of_nat (6 + (l + S (String.length rest))))))
    with 6%nat by lia.
  replace (Z.to_nat
             (Z.min (Z.of_nat l + 1 + 1 + 1 + 1 + 1 + 1)
                (Z.of_nat (6 + (l + S (String.length rest)))) -
              Z.min (5 + 1) (Z.of_nat (6 + (l + S (String.length rest))))))
    with l by lia.
  cbn [String.append substring]. apply substring_prefix.
Qed.

End MaskNameFacts.

Lemma all_digits_uint (u : Decimal.uint) : all_digits (NilEmpty.string_of_uint u) = true.
Proof. induction u; cbn [NilEmpty.string_of_uint all_digits]; auto. Qed.

Lemma int_of_digits_nonneg (s : string) : (0 <= int_of_digits s)%Z.
Proof.
  unfold int_of_digits. destruct (NilEmpty.uint_of_string s); [|lia].
  unfold Z.of_uint. apply N2Z.is_nonneg.
Qed.

(** A number written with fewer than three digits is below 100. *)
Lemma uint_short (u : Decimal.uint) :
  (String.length (NilEmpty.string_of_uint u) < 3)%nat -> (Z.of_uint u < 100)%Z.
Proof.
  intros H.
  destruct u as [|u|u|u|u|u|u|u|u|u|u]; [vm_compute; reflexivity|..];
    (destruct u as [|u|u|u|u|u|u|u|u|u|u]; [vm_compute; reflexivity|..];
     (destruct u as [|u|u|u|u|u|u|u|u|u|u]; [vm_compute; reflexivity|..];
      cbn [NilEmpty.string_of_uint String.length] in H; lia)).
Qed.

Lemma str_int_length (m : Z) : (100 <= m)%Z -> (3 <= String.length (str_int m))%nat.
Proof.
  intros Hm. destruct (str_int_nonneg m) as (u & _ & E & Eu); [lia|].
  rewrite E. destruct (Nat.lt_ge_cases (String.length (NilEmpty.string_of_uint u)) 3)
    as [Hlt|Hge]; [|exact Hge].
  apply uint_short in Hlt. lia.
Qed.

(** From 100 on, [f'{n:03d}'] writes what [f'{n}'] writes. *)
Lemma format_03d_large (m : Z) : (100 <= m)%Z -> format_03d m = str_int m.
Proof.
  intros Hm. unfold format_03d.
  replace (m <? 0)%Z with false by (symmetry; apply Z.ltb_ge; lia).
  unfold zfill. pose proof (str_int_length m Hm) as Hl.
  replace (3 - String.length (str_int m))%nat with 0%nat by lia. reflexivity.
Qed.

(** The mask of an image file named [image-<digits>.<rest>]. *)
Lemma mask_name_digits (int_other : string -> result Z) (ds rest : string) :
  ds <> EmptyString -> all_digits ds = true ->
  mask_name int_other ("image-" ++ ds ++ String "." rest)%string =
  Ok (image_name (int_of_digits ds + 1)).
Proof.
  intros Hne Hd. unfold mask_name.
  rewrite (slice_image_number ds rest Hd).
  unfold py_int. destruct ds as [|c ds]; [congruence|]. rewrite Hd. cbn [bind].
  pose proof (int_of_digits_nonneg (String c ds)) as Hn.
  destruct (Z.ltb_spec (int_of_digits (String c ds)) 99) as [Hlt|Hge].
  - reflexivity.
  - rewrite <- format_03d_large by lia. reflexivity.
Qed.

(** The padded digits of a number that is not negative. *)
Lemma format_03d_digits (k : Z) :
  (0 <= k)%Z ->
  format_03d k <> EmptyString /\ all_digits (format_03d k) = true /\
  int_of_digits (format_03d k) = k.
Proof.
  intros Hk. unfold format_03d.
  replace (k <? 0)%Z with false by (symmetry; apply Z.ltb_ge; lia).
  destruct (str_int_nonneg k Hk) as (u & Hu & E & Eu). rewrite E.
  assert (Hpad : forall j : nat,
            Nat.iter j (String "0") (NilEmpty.string_of_uint u)
            = NilEmpty.string_of_uint (Nat.iter j Decimal.D0 u) /\
            Nat.iter j Decimal.D0 u <> Decimal.Nil /\
            Z.of_uint (Nat.iter j Decimal.D0 u) = k).
  { induction j as [|j (IH1 & IH2 & IH3)]; [auto|].
    rewrite !Nat.iter_succ, IH1. split; [reflexivity|].
    split; [discriminate | exact IH3]. }
  unfold zfill.
  destruct (Hpad (3 - String.length (NilEmpty.string_of_uint u))%nat)
    as (-> & Hnil & Hval).
  split; [|split].
  - destruct (string_of_uint_nonempty _ Hnil) as (c & s & ->). discriminate.
  - apply all_digits_uint.
  - rewrite int_of_digits_uint. exact Hval.
Qed.

(** X19. The mask of an extracted image is looked for under the next
    number: for a file named [image-<digits>.<rest>], with digits 0 to 9,
    [extract_images_from_pdf] forms the name [image-NNN.png] with the number
    of the digits plus one, padded with zeros to three digits, whichever of
    its two formats it takes; so the mask of [image-NNN.png] of number [k] is
    [image-NNN.png] of number [k + 1]. *)
Theorem mask_name_next (int_other : string -> result Z) (ds rest : string) (k : Z) :
  (ds <> EmptyString -> all_digits ds = true ->
   mask_name int_other ("image-" ++ ds ++ String "." rest)%string =
   Ok (image_name (int_of_digits ds + 1))) /\
  ((0 <= k)%Z ->
   mask_name int_other (image_name k) = Ok (image_name (k + 1))).
Proof.
  split; [apply mask_name_digits|].
  intros Hk. destruct (format_03d_digits k Hk) as (Hne & Hd & Hv).
  unfold image_name at 1.
  change ".png"%string with (String "." "png").
  rewrite (mask_name_digits int_other _ "png" Hne Hd), Hv. reflexivity.
Qed.

(** X19 for [image-7.png] and for the numbers 98 and 99. *)
Lemma mask_name_next_witness :
  mask_name (fun _ => Raise AttributeError) "image-7.png" = Ok "image-008.png"%string /\
  mask_name (fun _ => Raise AttributeError) (image_name 98) = Ok (image_name (98 + 1)) /\
  mask_name (fun _ => Raise AttributeError) (image_name 99) = Ok (image_name (99 + 1)).
Proof.
  destruct (mask_name_next (fun _ => Raise AttributeError) "7" "png" 98) as [Hd H98].
  destruct (mask_name_next (fun _ => Raise AttributeError) "7" "png" 99) as [_ H99].
  split; [|split].
  - apply Hd; [discriminate | reflexivity].
  - apply H98. lia.
  - apply H99. lia.
Defined.
